(** * MT5 gateway: connection lifecycle, order validation and execution

    A shallow embedding of the gateway's core (mt5_connection.py, lib.py,
    errors.py, decorators.py, routes/order.py, routes/position.py) and the
    properties its specification states about it.

    Modelling conventions.
    - Python [float]s are modelled as exact rationals [Q]: arithmetic and
      comparisons are the exact ones, there is no NaN and no infinity.
    - Python [int]s are [Z]; [str] is [string]; [dict]s with string keys are
      [gmap string pyval].
    - The MetaTrader5 terminal, the clock and the few Python builtins whose
      result is not fixed here (float formatting, numeric parsing) form the
      interface [Runtime]; every call may return a value or raise.
    - Effectful code runs in the monad [M]: state passing over the process
      (terminal state, the connection singleton) with exceptions and a log
      of the calls made.  Logging has no effect on any modelled result and is
      left out. *)

From Stdlib Require Import ZArith QArith Qround Qabs Lqa Lia Ascii String DecimalString.
From stdpp Require Import base strings gmap list.

Set Warnings "-register-all,-clear-no-such-hyp".

(** ** Python values *)

Inductive pyval :=
| PNone
| PBool (b : bool)
| PInt (z : Z)
| PFloat (q : Q)
| PStr (s : string)
| PList (l : list pyval)
| PDict (d : gmap string pyval).

Record exn := Exn { exn_type : string; exn_msg : string }.

Inductive outcome (A : Type) :=
| Ok (a : A)
| Raise (e : exn).
Arguments Ok {A} a.
Arguments Raise {A} e.

(** Comparisons on floats, as booleans. *)
Definition Qleb (a b : Q) : bool := Qle_bool a b.
Definition Qltb (a b : Q) : bool := negb (Qle_bool b a).
Definition Qeqb (a b : Q) : bool := Qeq_bool a b.

(** [round(x)] with one argument: nearest integer, ties to even. *)
Definition py_round (x : Q) : Z :=
  let f := Qfloor x in
  let r := (x - inject_Z f)%Q in
  if Qltb r (1 # 2) then f
  else if Qltb (1 # 2) r then (f + 1)%Z
  else if Z.even f then f else (f + 1)%Z.

(** [a / b] on floats raises ZeroDivisionError on a zero divisor. *)
Definition py_truediv (a b : Q) : outcome Q :=
  if Qeqb b 0 then Raise (Exn "ZeroDivisionError" "float division by zero")
  else Ok (a / b)%Q.

(** [str(n)] for an int. *)
Definition str_of_Z (z : Z) : string := NilZero.string_of_int (Z.to_int z).

(** [needle in haystack] for two strings. *)
Fixpoint str_contains (needle haystack : string) : bool :=
  if String.prefix needle haystack then true
  else match haystack with
       | EmptyString => false
       | String _ rest => str_contains needle rest
       end.

Definition ascii_upper (c : ascii) : ascii :=
  let n := Ascii.N_of_ascii c in
  if ((97 <=? n) && (n <=? 122))%N then Ascii.ascii_of_N (n - 32) else c.

(** [s.upper()], on ASCII. *)
Fixpoint str_upper (s : string) : string :=
  match s with
  | EmptyString => EmptyString
  | String c rest => String (ascii_upper c) (str_upper rest)
  end.

Definition ascii_lower (c : ascii) : ascii :=
  let n := Ascii.N_of_ascii c in
  if ((65 <=? n) && (n <=? 90))%N then Ascii.ascii_of_N (n + 32) else c.

Fixpoint str_lower (s : string) : string :=
  match s with
  | EmptyString => EmptyString
  | String c rest => String (ascii_lower c) (str_lower rest)
  end.

(** [s.capitalize()], on ASCII. *)
Definition str_capitalize (s : string) : string :=
  match s with
  | EmptyString => EmptyString
  | String c rest => String (ascii_upper c) (str_lower rest)
  end.

(** ** MetaTrader5 constants (values of the MetaTrader5 package) *)

Module mt5.
Definition ORDER_TYPE_BUY : Z := 0.
Definition ORDER_TYPE_SELL : Z := 1.
Definition ORDER_TYPE_BUY_LIMIT : Z := 2.
Definition ORDER_TYPE_SELL_LIMIT : Z := 3.
Definition ORDER_TYPE_BUY_STOP : Z := 4.
Definition ORDER_TYPE_SELL_STOP : Z := 5.
Definition ORDER_FILLING_FOK : Z := 0.
Definition ORDER_FILLING_IOC : Z := 1.
Definition ORDER_FILLING_RETURN : Z := 2.
Definition ORDER_TIME_GTC : Z := 0.
Definition TRADE_ACTION_DEAL : Z := 1.
Definition TRADE_ACTION_PENDING : Z := 5.
Definition TRADE_ACTION_SLTP : Z := 6.
Definition TRADE_ACTION_MODIFY : Z := 7.
Definition TRADE_ACTION_REMOVE : Z := 8.
Definition TRADE_RETCODE_DONE : Z := 10009.
End mt5.

(** ** Records returned by the terminal *)

Record SymbolInfo := {
  volume_min : Q;
  volume_max : Q;
  volume_step : Q;
  point : Q;
  trade_freeze_level : Z;
  filling_mode : Z
}.

Record Tick := { bid : Q; ask : Q }.

Record AccountInfo := { login : Z; server : string }.

Record TradePosition := {
  pos_ticket : Z;
  pos_type : Z;
  pos_symbol : string;
  pos_volume : Q;
  pos_magic : Z
}.

Record TradeOrder := {
  ord_ticket : Z;
  ord_type : Z;
  ord_symbol : string;
  ord_price_open : Q;
  ord_sl : Q;
  ord_tp : Q
}.

Record OrderSendResult := {
  retcode : Z;
  deal : Z;
  order : Z;
  volume : Q;
  price : Q;
  comment : string
}.

(** [result._asdict()] *)
Definition asdict (r : OrderSendResult) : gmap string pyval :=
  <["retcode" := PInt (retcode r)]>
  (<["deal" := PInt (deal r)]>
  (<["order" := PInt (order r)]>
  (<["volume" := PFloat (volume r)]>
  (<["price" := PFloat (price r)]>
  (<["comment" := PStr (comment r)]> ∅))))).

(** ** The runtime interface: terminal calls, clock, unfixed builtins *)

Class Runtime (W : Type) := {
  mt5_initialize : W -> outcome bool * W;
  mt5_shutdown : W -> outcome unit * W;
  mt5_account_info : W -> outcome (option AccountInfo) * W;
  mt5_last_error : W -> outcome (Z * string) * W;
  mt5_symbol_select : pyval -> bool -> W -> outcome bool * W;
  mt5_symbol_info : pyval -> W -> outcome (option SymbolInfo) * W;
  mt5_symbol_info_tick : pyval -> W -> outcome (option Tick) * W;
  mt5_positions_get : pyval -> W -> outcome (option (list TradePosition)) * W;
  mt5_orders_get : Z -> W -> outcome (option (list TradeOrder)) * W;
  mt5_order_send : gmap string pyval -> W -> outcome (option OrderSendResult) * W;
  time_sleep : Q -> W -> W;
  (** [str(x)] of a float, and of a list or dict *)
  repr_float : Q -> string;
  repr_container : pyval -> string;
  (** [float(s)] and [int(s)] of a string; [None] is ValueError *)
  parse_float : string -> option Q;
  parse_int : string -> option Z
}.

(** constants.py is not among the sources; what the code imports from it
    is taken as a parameter. *)
Class Constants := {
  ORDER_TYPE_TO_STRING : gmap Z string;
  TRADE_ACTION_DEAL : Z;
  TRADE_ACTION_PENDING : Z
}.

(** Every call that leaves the process is recorded. *)
Inductive event :=
| EvInitialize
| EvShutdown
| EvAccountInfo
| EvLastError
| EvSymbolSelect (symbol : pyval)
| EvSymbolInfo (symbol : pyval)
| EvSymbolInfoTick (symbol : pyval)
| EvPositionsGet (ticket : pyval)
| EvOrdersGet (ticket : Z)
| EvOrderSend (request : gmap string pyval)
| EvSleep (delay : Q).

(** ** mt5_connection.py: the connection singleton *)

Inductive ConnectionStatus := DISCONNECTED | CONNECTED | RECONNECTING.

Definition status_value (s : ConnectionStatus) : string :=
  match s with
  | DISCONNECTED => "disconnected"
  | CONNECTED => "connected"
  | RECONNECTING => "reconnecting"
  end.

Definition is_CONNECTED (s : ConnectionStatus) : bool :=
  match s with CONNECTED => true | _ => false end.

Definition is_DISCONNECTED (s : ConnectionStatus) : bool :=
  match s with DISCONNECTED => true | _ => false end.

Record MT5Connection := {
  _status : ConnectionStatus;
  _last_error : option string;
  _max_reconnect_attempts : Z;
  _base_delay : Q
}.

(** [MT5Connection.__init__] with the two settings read from the
    environment. *)
Definition MT5Connection_init (attempts : Z) (delay : Q) : MT5Connection :=
  {| _status := DISCONNECTED; _last_error := None;
     _max_reconnect_attempts := attempts; _base_delay := delay |}.

(** ** The process monad *)

(** The state of the process: the terminal and the connection singleton. *)
Record process (W : Type) := Process {
  world : W;
  conn : MT5Connection
}.
Arguments Process {W} _ _.
Arguments world {W} _.
Arguments conn {W} _.

(** The result of running a computation: its value or exception, the
    state it leaves, and the calls it made, oldest first. *)
Record run (W A : Type) := Run {
  result : outcome A;
  final : process W;
  events : list event
}.
Arguments Run {W A} _ _ _.
Arguments result {W A} _.
Arguments final {W A} _.
Arguments events {W A} _.

Definition M (W A : Type) : Type := process W -> run W A.

Definition ret {W A} (a : A) : M W A := fun p => Run (Ok a) p [].

Definition bind {W A B} (m : M W A) (k : A -> M W B) : M W B :=
  fun p =>
    match m p with
    | Run (Ok a) p1 t1 =>
        match k a p1 with
        | Run r p2 t2 => Run r p2 (t1 ++ t2)
        end
    | Run (Raise e) p1 t1 => Run (Raise e) p1 t1
    end.

Definition raise {W A} (e : exn) : M W A := fun p => Run (Raise e) p [].

(** [try: m  except Exception as e: h e] *)
Definition try_except {W A} (m : M W A) (h : exn -> M W A) : M W A :=
  fun p =>
    match m p with
    | Run (Ok a) p1 t1 => Run (Ok a) p1 t1
    | Run (Raise e) p1 t1 =>
        match h e p1 with
        | Run r p2 t2 => Run r p2 (t1 ++ t2)
        end
    end.

(** A value computed by a fallible pure operation. *)
Definition lift {W A} (o : outcome A) : M W A := fun p => Run o p [].

Notation "x <~ m ;; k" := (bind m (fun x => k))
  (at level 100, m at next level, right associativity).
Notation "m ;;; k" := (bind m (fun _ => k))
  (at level 100, right associativity).

(** A call that leaves the process: it steps the world and is logged. *)
Definition call {W A} (ev : event) (f : W -> outcome A * W) : M W A :=
  fun p =>
    match f (world p) with
    | (r, w') => Run r (Process w' (conn p)) [ev]
    end.

Definition get_conn {W} : M W MT5Connection := fun p => Run (Ok (conn p)) p [].

Section Connection.
Context {W : Type} `{RT : Runtime W}.

Definition _set_status (new_status : ConnectionStatus)
    (error : option string) : M W unit :=
  fun p =>
    let c := conn p in
    Run (Ok tt)
      (Process (world p)
         {| _status := new_status; _last_error := error;
            _max_reconnect_attempts := _max_reconnect_attempts c;
            _base_delay := _base_delay c |})
      [].

Definition is_connected : M W bool :=
  c <~ get_conn ;; ret (is_CONNECTED (_status c)).

Definition get_status : M W ConnectionStatus :=
  c <~ get_conn ;; ret (_status c).

Definition get_last_error : M W (option string) :=
  c <~ get_conn ;; ret (_last_error c).

Definition sleep (delay : Q) : M W unit :=
  call (EvSleep delay) (fun w => (Ok tt, time_sleep delay w)).

(** The diagnostic of a failed attempt:
    [error_code, error_str = mt5.last_error()] and the status update. *)
Definition record_failure : M W bool :=
  le <~ call EvLastError mt5_last_error ;;
  let error_msg :=
    "MT5 initialization failed: " +:+ snd le +:+ " (code: "
      +:+ str_of_Z (fst le) +:+ ")" in
  _set_status DISCONNECTED (Some error_msg) ;;;
  ret false.

(** One pass through the body of the [while] loop of [initialize], up to
    the back-off: [true] is the [return True] of the source. *)
Definition login_attempt (attempt : Z) : M W bool :=
  c <~ get_conn ;;
  (if (1 <? attempt)%Z
   then _set_status RECONNECTING
          (Some ("Reconnection attempt " +:+ str_of_Z attempt +:+ "/"
                   +:+ str_of_Z (_max_reconnect_attempts c)))
   else ret tt) ;;;
  try_except
    (ok <~ call EvInitialize mt5_initialize ;;
     if ok then
       account_info <~ call EvAccountInfo mt5_account_info ;;
       match account_info with
       | Some _ => _set_status CONNECTED None ;;; ret true
       | None => record_failure
       end
     else record_failure)
    (fun e =>
       let error_msg := "Exception during MT5 initialization: " +:+ exn_msg e in
       _set_status DISCONNECTED (Some error_msg) ;;;
       ret false).

(** [if attempt < max: delay = base * 2 ** (attempt - 1); time.sleep(delay)] *)
Definition backoff (attempt : Z) : M W unit :=
  c <~ get_conn ;;
  if (attempt <? _max_reconnect_attempts c)%Z
  then sleep (_base_delay c * inject_Z (2 ^ (attempt - 1)))%Q
  else ret tt.

(** The code after the loop. *)
Definition give_up_initialize : M W bool :=
  c <~ get_conn ;;
  let final_error :=
    "Failed to initialize MT5 after "
      +:+ str_of_Z (_max_reconnect_attempts c) +:+ " attempts" in
  _set_status DISCONNECTED (Some final_error) ;;;
  ret false.

(** The [while attempt < max] loop; [attempt] is the counter on entry.
    Running out of [fuel] is an error of the model, not of the code. *)
Fixpoint initialize_loop (fuel : nat) (attempt : Z) : M W bool :=
  c <~ get_conn ;;
  if (attempt <? _max_reconnect_attempts c)%Z then
    match fuel with
    | O => raise (Exn "OutOfFuel" "")
    | S fuel' =>
        let attempt := (attempt + 1)%Z in
        connected <~ login_attempt attempt ;;
        if connected then ret true
        else backoff attempt ;;; initialize_loop fuel' attempt
    end
  else give_up_initialize.

Definition initialize : M W bool :=
  c <~ get_conn ;;
  initialize_loop (Z.to_nat (_max_reconnect_attempts c)) 0.

Definition ensure_connection : M W bool :=
  connected <~ is_connected ;;
  alive <~ (if connected then
              try_except
                (account_info <~ call EvAccountInfo mt5_account_info ;;
                 match account_info with
                 | Some _ => ret true
                 | None =>
                     _set_status DISCONNECTED (Some "Connection lost") ;;;
                     ret false
                 end)
                (fun e =>
                   _set_status DISCONNECTED (Some (exn_msg e)) ;;;
                   ret false)
            else ret false) ;;
  if alive then ret true else initialize.

Definition shutdown : M W unit :=
  c <~ get_conn ;;
  if is_DISCONNECTED (_status c) then ret tt
  else
    try_except (call EvShutdown mt5_shutdown) (fun _ => ret tt) ;;;
    _set_status DISCONNECTED None.

End Connection.

(** ** Python builtins on JSON values *)

Definition TypeError (msg : string) : exn := Exn "TypeError" msg.
Definition ValueError (msg : string) : exn := Exn "ValueError" msg.
Definition KeyError (msg : string) : exn := Exn "KeyError" msg.

(** [bool(v)] *)
Definition py_truthy (v : pyval) : bool :=
  match v with
  | PNone => false
  | PBool b => b
  | PInt z => negb (z =? 0)%Z
  | PFloat q => negb (Qeqb q 0)
  | PStr s => negb (String.eqb s "")
  | PList l => match l with [] => false | _ => true end
  | PDict d => negb (Nat.eqb (size d) 0)
  end.

Definition is_PStr (s : string) (v : pyval) : bool :=
  match v with PStr s' => String.eqb s s' | _ => false end.

(** [key in container] for a string [key] *)
Definition py_contains (key : string) (container : pyval) : outcome bool :=
  match container with
  | PDict d => Ok (bool_decide (is_Some (d !! key)))
  | PList l => Ok (existsb (is_PStr key) l)
  | PStr s => Ok (str_contains key s)
  | _ => Raise (TypeError "argument is not iterable")
  end.

(** [all(field in data for field in fields)] *)
Fixpoint py_all_in (fields : list string) (data : pyval) : outcome bool :=
  match fields with
  | [] => Ok true
  | f :: rest =>
      match py_contains f data with
      | Ok true => py_all_in rest data
      | Ok false => Ok false
      | Raise e => Raise e
      end
  end.

(** [d[key]] on a dict *)
Definition dict_getitem (d : gmap string pyval) (key : string) : outcome pyval :=
  match d !! key with
  | Some v => Ok v
  | None => Raise (KeyError key)
  end.

(** [d.get(key, dflt)] on a dict *)
Definition dict_get (d : gmap string pyval) (key : string) (dflt : pyval) : pyval :=
  default dflt (d !! key).

Definition is_not_None (v : pyval) : bool :=
  match v with PNone => false | _ => true end.

Section Builtins.
Context {W : Type} `{RT : Runtime W}.

(** [float(v)] *)
Definition py_float (v : pyval) : outcome Q :=
  match v with
  | PInt z => Ok (inject_Z z)
  | PFloat q => Ok q
  | PBool b => Ok (if b then 1 else 0)%Q
  | PStr s => match parse_float s with
              | Some q => Ok q
              | None => Raise (ValueError "could not convert string to float")
              end
  | _ => Raise (TypeError "float() argument must be a string or a real number")
  end.

(** [int(v)]: a float is truncated toward zero *)
Definition py_int (v : pyval) : outcome Z :=
  match v with
  | PInt z => Ok z
  | PFloat q => Ok (Qnum q ÷ Zpos (Qden q))%Z
  | PBool b => Ok (if b then 1 else 0)%Z
  | PStr s => match parse_int s with
              | Some z => Ok z
              | None => Raise (ValueError "invalid literal for int()")
              end
  | _ => Raise (TypeError "int() argument must be a string or a real number")
  end.

(** [str(v)], also the rendering of [{v}] in an f-string *)
Definition py_str (v : pyval) : string :=
  match v with
  | PNone => "None"
  | PBool true => "True"
  | PBool false => "False"
  | PInt z => str_of_Z z
  | PFloat q => repr_float q
  | PStr s => s
  | PList _ | PDict _ => repr_container v
  end.

End Builtins.

(** ** lib.py *)

Section Lib.
Context {W : Type} `{RT : Runtime W} `{CT : Constants}.

Definition validate_symbol (symbol_name : pyval) : M W bool :=
  selected <~ call (EvSymbolSelect symbol_name)
                (mt5_symbol_select symbol_name true) ;;
  if negb selected then ret false else ret true.

(** The choice made from the capability bitmask of the symbol. *)
Definition filling_mode_of_bitmask (filling_mode : Z) : Z :=
  if negb (Z.land filling_mode 2 =? 0)%Z then mt5.ORDER_FILLING_IOC
  else if negb (Z.land filling_mode 4 =? 0)%Z then mt5.ORDER_FILLING_RETURN
  else if negb (Z.land filling_mode 1 =? 0)%Z then mt5.ORDER_FILLING_FOK
  else mt5.ORDER_FILLING_RETURN.

Definition get_symbol_filling_mode (symbol_name : pyval) : M W Z :=
  symbol_info <~ call (EvSymbolInfo symbol_name) (mt5_symbol_info symbol_name) ;;
  match symbol_info with
  | None => ret mt5.ORDER_FILLING_RETURN
  | Some symbol_info => ret (filling_mode_of_bitmask (filling_mode symbol_info))
  end.

(** The body of [validate_volume] once the symbol info is at hand.  The
    division is a parameter, so that what does not depend on it can be
    stated; the code uses Python's [/]. *)
Definition check_volume_with (div : Q -> Q -> outcome Q)
    (symbol_info : SymbolInfo) (volume : Q) : outcome (bool * option string) :=
  if Qltb volume (volume_min symbol_info) then
    Ok (false, Some ("Volume " +:+ repr_float volume +:+ " below minimum "
                       +:+ repr_float (volume_min symbol_info)))
  else if Qltb (volume_max symbol_info) volume then
    Ok (false, Some ("Volume " +:+ repr_float volume +:+ " exceeds maximum "
                       +:+ repr_float (volume_max symbol_info)))
  else
    let volume_step := volume_step symbol_info in
    if Qltb 0 volume_step then
      match div (volume - volume_min symbol_info)%Q volume_step with
      | Raise e => Raise e
      | Ok quotient =>
          let steps := py_round quotient in
          let expected_volume :=
            (volume_min symbol_info + inject_Z steps * volume_step)%Q in
          let epsilon := (volume_step * (1 # 100))%Q in
          if Qltb epsilon (Qabs (volume - expected_volume)) then
            Ok (false, Some ("Volume must be in steps of "
                               +:+ repr_float volume_step))
          else Ok (true, None)
      end
    else Ok (true, None).

Definition check_volume : SymbolInfo -> Q -> outcome (bool * option string) :=
  check_volume_with py_truediv.

Definition validate_volume (symbol : pyval) (volume : Q)
    : M W (bool * option string) :=
  symbol_info <~ call (EvSymbolInfo symbol) (mt5_symbol_info symbol) ;;
  match symbol_info with
  | None => ret (false, Some "Symbol info unavailable")
  | Some symbol_info => lift (check_volume symbol_info volume)
  end.

Definition is_buy_type (order_type : Z) : bool :=
  (order_type =? mt5.ORDER_TYPE_BUY)%Z
  || (order_type =? mt5.ORDER_TYPE_BUY_LIMIT)%Z
  || (order_type =? mt5.ORDER_TYPE_BUY_STOP)%Z.

Definition validate_sl_tp (order_type : Z) (price : Q)
    (sl tp : option Q) : bool * option string :=
  let is_buy := is_buy_type order_type in
  let sl_error :=
    match sl with
    | None => None
    | Some sl =>
        if Qleb sl 0 then Some "Stop loss must be positive"
        else if is_buy && Qleb price sl then
          Some "For BUY orders, SL must be below entry price"
        else if negb is_buy && Qleb sl price then
          Some "For SELL orders, SL must be above entry price"
        else None
    end in
  match sl_error with
  | Some msg => (false, Some msg)
  | None =>
      match tp with
      | None => (true, None)
      | Some tp =>
          if Qleb tp 0 then (false, Some "Take profit must be positive")
          else if is_buy && Qleb tp price then
            (false, Some "For BUY orders, TP must be above entry price")
          else if negb is_buy && Qleb price tp then
            (false, Some "For SELL orders, TP must be below entry price")
          else (true, None)
      end
  end.

(** The body of [validate_pending_price] once tick and symbol info are
    at hand. *)
Definition check_pending_price (order_type : Z) (tick : Tick)
    (symbol_info : SymbolInfo) (price : Q) : bool * option string :=
  let freeze_level :=
    (inject_Z (trade_freeze_level symbol_info) * point symbol_info)%Q in
  let type_str := default "" (ORDER_TYPE_TO_STRING !! order_type) in
  let current_price := if str_contains "BUY" type_str then ask tick else bid tick in
  if Qltb (Qabs (price - current_price)) freeze_level then
    (false, Some ("Price too close to market (freeze level: "
                    +:+ repr_float freeze_level +:+ ")"))
  else if (order_type =? mt5.ORDER_TYPE_BUY_LIMIT)%Z && Qleb (ask tick) price then
    (false, Some "BUY_LIMIT price must be below current ask")
  else if (order_type =? mt5.ORDER_TYPE_SELL_LIMIT)%Z && Qleb price (bid tick) then
    (false, Some "SELL_LIMIT price must be above current bid")
  else if (order_type =? mt5.ORDER_TYPE_BUY_STOP)%Z && Qleb price (ask tick) then
    (false, Some "BUY_STOP price must be above current ask")
  else if (order_type =? mt5.ORDER_TYPE_SELL_STOP)%Z && Qleb (bid tick) price then
    (false, Some "SELL_STOP price must be below current bid")
  else (true, None).

Definition validate_pending_price (order_type : Z) (symbol : pyval) (price : Q)
    : M W (bool * option string) :=
  tick <~ call (EvSymbolInfoTick symbol) (mt5_symbol_info_tick symbol) ;;
  match tick with
  | None => ret (false, Some "Unable to get current price")
  | Some tick =>
      symbol_info <~ call (EvSymbolInfo symbol) (mt5_symbol_info symbol) ;;
      match symbol_info with
      | None => ret (false, Some "Symbol info unavailable")
      | Some symbol_info =>
          ret (check_pending_price order_type tick symbol_info price)
      end
  end.

(** [close_position(position, deviation, magic, comment)]; [None] is
    the [return None] of the source. *)
Definition close_position (position deviation magic comment : pyval)
    : M W (option OrderSendResult) :=
  has_ticket <~ lift (py_contains "ticket" position) ;;
  if negb has_ticket then ret None else
  match position with
  | PDict position_dict =>
      ticket <~ lift (dict_getitem position_dict "ticket") ;;
      positions <~ call (EvPositionsGet ticket) (mt5_positions_get ticket) ;;
      match positions with
      | None | Some [] => ret None
      | Some (actual_position :: _) =>
          let position_type := pos_type actual_position in
          if negb ((position_type =? 0)%Z || (position_type =? 1)%Z)
          then ret None else
          let order_type :=
            if (position_type =? 0)%Z then mt5.ORDER_TYPE_SELL
            else mt5.ORDER_TYPE_BUY in
          let symbol := PStr (pos_symbol actual_position) in
          selectable <~ validate_symbol symbol ;;
          if negb selectable then ret None else
          tick <~ call (EvSymbolInfoTick symbol) (mt5_symbol_info_tick symbol) ;;
          match tick with
          | None => ret None
          | Some tick =>
              let price := if (position_type =? 0)%Z then bid tick else ask tick in
              if Qeqb price 0 then ret None else
              type_filling <~ get_symbol_filling_mode symbol ;;
              let request : gmap string pyval :=
                <["action" := PInt mt5.TRADE_ACTION_DEAL]>
                (<["position" := ticket]>
                (<["symbol" := symbol]>
                (<["volume" := PFloat (pos_volume actual_position)]>
                (<["type" := PInt order_type]>
                (<["price" := PFloat price]>
                (<["deviation" := deviation]>
                (<["magic" := PInt (pos_magic actual_position)]>
                (<["comment" := comment]>
                (<["type_time" := PInt mt5.ORDER_TIME_GTC]>
                (<["type_filling" := PInt type_filling]> ∅)))))))))) in
              order_result <~ call (EvOrderSend request) (mt5_order_send request) ;;
              match order_result with
              | None => ret None
              | Some order_result =>
                  if negb (retcode order_result =? mt5.TRADE_RETCODE_DONE)%Z
                  then ret None
                  else ret (Some order_result)
              end
          end
      end
  | _ => raise (TypeError "indices must be integers")
  end.

End Lib.

(** ** errors.py *)

(** Flask's per-request [g]: the middleware stores the request id there. *)
Record flask_g := { request_id : option string }.

(** What a view returns: [jsonify(body), status], or, where the source
    writes [return validation_error_response(...), 400], that pair paired
    with a second status. *)
Inductive view_return :=
| Resp (body : gmap string pyval) (status : Z)
| RespNested (inner : gmap string pyval * Z) (status : Z).

Definition _get_request_id (g : flask_g) : option string := request_id g.

(** [if request_id: response["request_id"] = request_id] *)
Definition add_request_id (rid : option string) (response : gmap string pyval)
    : gmap string pyval :=
  match rid with
  | Some rid => if py_truthy (PStr rid)
                then <["request_id" := PStr rid]> response else response
  | None => response
  end.

Definition Z_in (z : Z) (l : list Z) : bool := existsb (Z.eqb z) l.

Section Errors.
Context {W : Type} `{RT : Runtime W}.

Definition mt5_error_response (g : flask_g) (operation : string)
    (result : OrderSendResult) : M W (gmap string pyval * Z) :=
  let request_id := _get_request_id g in
  le <~ call EvLastError mt5_last_error ;;
  let error_code := fst le in
  let error_str := snd le in
  let is_connection_error :=
    Z_in error_code [10004; 10005; 10006]%Z
    || Z_in (retcode result) [10018; 10019; 10020]%Z in
  let status_code := if is_connection_error then 503%Z else 400%Z in
  let error_type :=
    if is_connection_error then "connection_error" else "mt5_rejected" in
  let response : gmap string pyval :=
    <["error" := PStr (operation +:+ " failed: " +:+ comment result)]>
    (<["error_type" := PStr error_type]>
    (<["mt5_error" :=
         PDict (<["retcode" := PInt (retcode result)]>
               (<["comment" := PStr (comment result)]>
               (<["error_code" := PInt error_code]>
               (<["error_string" := PStr error_str]> ∅))))]> ∅)) in
  ret (add_request_id request_id response, status_code).

Definition internal_error_response (g : flask_g) (operation : string)
    (exception : exn) : gmap string pyval * Z :=
  let request_id := _get_request_id g in
  let response : gmap string pyval :=
    <["error" := PStr "Internal server error"]>
    (<["operation" := PStr operation]>
    (<["detail" := PStr (exn_msg exception)]> ∅)) in
  (add_request_id request_id response, 500%Z).

Definition validation_error_response (g : flask_g) (message : string)
    (details : pyval) : gmap string pyval * Z :=
  let request_id := _get_request_id g in
  let response : gmap string pyval :=
    <["error" := PStr message]>
    (<["error_type" := PStr "validation_error"]> ∅) in
  let response :=
    if py_truthy details then <["details" := details]> response else response in
  (add_request_id request_id response, 400%Z).

Definition not_found_response (g : flask_g) (resource : string)
    (identifier : pyval) : gmap string pyval * Z :=
  let request_id := _get_request_id g in
  let message :=
    if py_truthy identifier
    then str_capitalize resource +:+ " not found: " +:+ py_str identifier
    else str_capitalize resource +:+ " not found" in
  let response : gmap string pyval :=
    <["error" := PStr message]>
    (<["error_type" := PStr "not_found"]> ∅) in
  (add_request_id request_id response, 404%Z).

End Errors.

Definition reply (r : gmap string pyval * Z) : view_return := Resp (fst r) (snd r).

(** ** decorators.py *)

Section Decorators.
Context {W : Type} `{RT : Runtime W}.

Definition option_str (o : option string) : pyval :=
  match o with Some s => PStr s | None => PNone end.

Definition require_mt5_connection (g : flask_g) (f : M W view_return)
    : M W view_return :=
  ok <~ ensure_connection ;;
  if negb ok then
    let request_id := request_id g in
    detail <~ get_last_error ;;
    status <~ get_status ;;
    let error_response : gmap string pyval :=
      <["error" := PStr "MT5 unavailable"]>
      (<["detail" := option_str detail]>
      (<["mt5_status" := PStr (status_value status)]> ∅)) in
    ret (Resp (add_request_id request_id error_response) 503)
  else f.

End Decorators.

(** ** routes/order.py *)

Definition ORDER_TYPE_MAP : gmap string Z :=
  <["BUY" := mt5.ORDER_TYPE_BUY]>
  (<["SELL" := mt5.ORDER_TYPE_SELL]>
  (<["BUY_LIMIT" := mt5.ORDER_TYPE_BUY_LIMIT]>
  (<["SELL_LIMIT" := mt5.ORDER_TYPE_SELL_LIMIT]>
  (<["BUY_STOP" := mt5.ORDER_TYPE_BUY_STOP]>
  (<["SELL_STOP" := mt5.ORDER_TYPE_SELL_STOP]> ∅))))).

(** [x = data.get(key); if x is not None: x = float(x)] *)
Definition optional_float {W} `{RT : Runtime W} (d : gmap string pyval)
    (key : string) : outcome (option Q) :=
  match dict_get d key PNone with
  | PNone => Ok None
  | v => match py_float v with
         | Ok q => Ok (Some q)
         | Raise e => Raise e
         end
  end.

(** [if x is not None: request_data[key] = x] *)
Definition set_if_present (key : string) (x : option Q)
    (request_data : gmap string pyval) : gmap string pyval :=
  match x with
  | Some x => <[key := PFloat x]> request_data
  | None => request_data
  end.

Section OrderRoutes.
Context {W : Type} `{RT : Runtime W} `{CT : Constants}.

(** The [if/elif/else] on the order type: the trade action and the entry
    price, or the response of an early return. *)
Definition resolve_entry (g : flask_g) (d : gmap string pyval)
    (symbol : pyval) (order_type : Z) : M W (view_return + Z * Q) :=
  if (order_type =? mt5.ORDER_TYPE_BUY)%Z || (order_type =? mt5.ORDER_TYPE_SELL)%Z
  then
    let action := TRADE_ACTION_DEAL in
    tick <~ call (EvSymbolInfoTick symbol) (mt5_symbol_info_tick symbol) ;;
    match tick with
    | None =>
        ret (inl (reply (validation_error_response g
               ("Failed to get symbol price for " +:+ py_str symbol) PNone)))
    | Some tick =>
        let price :=
          if (order_type =? mt5.ORDER_TYPE_BUY)%Z then ask tick else bid tick in
        ret (inr (action, price))
    end
  else if (order_type =? mt5.ORDER_TYPE_BUY_LIMIT)%Z
          || (order_type =? mt5.ORDER_TYPE_SELL_LIMIT)%Z
          || (order_type =? mt5.ORDER_TYPE_BUY_STOP)%Z
          || (order_type =? mt5.ORDER_TYPE_SELL_STOP)%Z
  then
    let action := TRADE_ACTION_PENDING in
    match d !! "price" with
    | None =>
        ret (inl (reply (validation_error_response g
               "Price required for pending orders" PNone)))
    | Some price_v =>
        price <~ lift (py_float price_v) ;;
        if Qleb price 0 then
          ret (inl (reply (validation_error_response g
                 "Price must be positive" PNone)))
        else
          checked <~ validate_pending_price order_type symbol price ;;
          if negb (fst checked) then
            ret (inl (reply (validation_error_response g
                   (default "" (snd checked)) PNone)))
          else ret (inr (action, price))
    end
  else
    ret (inl (reply (validation_error_response g "Invalid order type" PNone))).

(** The [request_data] dict of [send_market_order_endpoint]. *)
Definition order_request_data (d : gmap string pyval) (symbol : pyval)
    (action : Z) (volume : Q) (order_type : Z) (price : Q)
    (sl tp : option Q) : gmap string pyval :=
  set_if_present "tp" tp
    (set_if_present "sl" sl
      (<["action" := PInt action]>
      (<["symbol" := symbol]>
      (<["volume" := PFloat volume]>
      (<["type" := PInt order_type]>
      (<["price" := PFloat price]>
      (<["deviation" := dict_get d "deviation" (PInt 20)]>
      (<["magic" := dict_get d "magic" (PInt 0)]>
      (<["comment" := dict_get d "comment" (PStr "")]>
      (<["type_time" := PInt mt5.ORDER_TIME_GTC]>
      (<["type_filling" :=
           dict_get d "type_filling" (PInt mt5.ORDER_FILLING_IOC)]> ∅))))))))))).

(** The body of the [try] of [send_market_order_endpoint]. *)
Definition send_market_order_body (g : flask_g) (data : pyval)
    : M W view_return :=
  let invalid msg := ret (reply (validation_error_response g msg PNone)) in
  if negb (py_truthy data) then invalid "Order data is required" else
  let required_fields := ["symbol"; "volume"; "type"] in
  complete <~ lift (py_all_in required_fields data) ;;
  if negb complete then
    ret (reply (validation_error_response g "Missing required fields"
           (PDict (<["required" := PList (PStr <$> required_fields)]> ∅))))
  else
  match data with
  | PDict d =>
      symbol <~ lift (dict_getitem d "symbol") ;;
      selectable <~ validate_symbol symbol ;;
      if negb selectable then
        invalid ("Symbol not found or not selectable: " +:+ py_str symbol)
      else
      type_v <~ lift (dict_getitem d "type") ;;
      let order_type_str :=
        match type_v with
        | PStr s => str_upper s
        | _ => py_str type_v
        end in
      match ORDER_TYPE_MAP !! order_type_str with
      | None => invalid ("Invalid order type: " +:+ py_str type_v)
      | Some order_type =>
          volume_v <~ lift (dict_getitem d "volume") ;;
          volume <~ lift (py_float volume_v) ;;
          if Qleb volume 0 then invalid "Volume must be positive" else
          checked <~ validate_volume symbol volume ;;
          if negb (fst checked) then invalid (default "" (snd checked)) else
          entry <~ resolve_entry g d symbol order_type ;;
          match entry with
          | inl early => ret early
          | inr (action, price) =>
              sl <~ lift (optional_float d "sl") ;;
              tp <~ lift (optional_float d "tp") ;;
              let checked :=
                if bool_decide (is_Some sl) || bool_decide (is_Some tp)
                then validate_sl_tp order_type price sl tp
                else (true, None) in
              if negb (fst checked) then invalid (default "" (snd checked)) else
              let request_data :=
                order_request_data d symbol action volume order_type price sl tp in
              result <~ call (EvOrderSend request_data)
                          (mt5_order_send request_data) ;;
              match result with
              | None => invalid "Order execution failed - MT5 returned None"
              | Some result =>
                  if negb (retcode result =? mt5.TRADE_RETCODE_DONE)%Z then
                    r <~ mt5_error_response g "Send order" result ;;
                    ret (reply r)
                  else
                    let action_str :=
                      if (action =? TRADE_ACTION_DEAL)%Z
                      then "executed" else "placed" in
                    ret (Resp
                           (<["message" :=
                                PStr ("Order " +:+ action_str +:+ " successfully")]>
                           (<["result" := PDict (asdict result)]> ∅)) 200)
              end
          end
      end
  | _ => raise (TypeError "indices must be integers")
  end.

Definition send_market_order_endpoint (g : flask_g) (data : pyval)
    : M W view_return :=
  try_except (send_market_order_body g data)
    (fun e => ret (reply (internal_error_response g "send_order" e))).

(** [DELETE /orders/<ticket>] *)
Definition cancel_order (g : flask_g) (ticket : Z) : M W view_return :=
  try_except
    (orders <~ call (EvOrdersGet ticket) (mt5_orders_get ticket) ;;
     match orders with
     | None =>
         ret (Resp (<["error" := PStr "Failed to retrieve order information"]>
                   (<["error_type" := PStr "connection_error"]> ∅)) 503)
     | Some [] =>
         ret (Resp (<["error" := PStr ("Order with ticket " +:+ str_of_Z ticket
                                         +:+ " not found")]>
                   (<["error_type" := PStr "not_found"]> ∅)) 404)
     | Some (_ :: _) =>
         let request_data : gmap string pyval :=
           <["action" := PInt mt5.TRADE_ACTION_REMOVE]>
           (<["order" := PInt ticket]>
           (<["type_time" := PInt mt5.ORDER_TIME_GTC]>
           (<["type_filling" := PInt mt5.ORDER_FILLING_RETURN]> ∅))) in
         result <~ call (EvOrderSend request_data) (mt5_order_send request_data) ;;
         match result with
         | None =>
             ret (RespNested (validation_error_response g
                    "Order cancellation failed - MT5 returned None" PNone) 400)
         | Some result =>
             if negb (retcode result =? mt5.TRADE_RETCODE_DONE)%Z then
               r <~ mt5_error_response g "Cancel order" result ;;
               ret (reply r)
             else
               ret (Resp (<["message" := PStr "Order cancelled successfully"]>
                         (<["result" := PDict (asdict result)]> ∅)) 200)
         end
     end)
    (fun e => ret (reply (internal_error_response g "cancel_order" e))).

End OrderRoutes.

(** ** routes/position.py *)

Section PositionRoutes.
Context {W : Type} `{RT : Runtime W} `{CT : Constants}.

(** [POST /close_position] *)
Definition close_position_endpoint (g : flask_g) (data : pyval)
    : M W view_return :=
  try_except
    (let invalid msg := ret (reply (validation_error_response g msg PNone)) in
     if negb (py_truthy data) then invalid "Position data is required" else
     has_position <~ lift (py_contains "position" data) ;;
     if negb has_position then invalid "Position data is required" else
     match data with
     | PDict d =>
         position <~ lift (dict_getitem d "position") ;;
         result <~ close_position position (PInt 20) (PInt 0) (PStr "") ;;
         match result with
         | None => invalid "Failed to close position"
         | Some result =>
             if negb (retcode result =? mt5.TRADE_RETCODE_DONE)%Z then
               r <~ mt5_error_response g "Close position" result ;;
               ret (reply r)
             else
               ret (Resp (<["message" := PStr "Position closed successfully"]>
                         (<["result" := PDict (asdict result)]> ∅)) 200)
         end
     | _ => raise (TypeError "indices must be integers")
     end)
    (fun e => ret (reply (internal_error_response g "close_position" e))).

(** The [request_data] dict of [close_position_partial_endpoint]. *)
Definition partial_close_request (ticket : Z) (symbol : pyval) (volume : Q)
    (order_type : Z) (price : Q) (deviation magic comment : pyval)
    (type_filling : Z) : gmap string pyval :=
  <["action" := PInt mt5.TRADE_ACTION_DEAL]>
  (<["position" := PInt ticket]>
  (<["symbol" := symbol]>
  (<["volume" := PFloat volume]>
  (<["type" := PInt order_type]>
  (<["price" := PFloat price]>
  (<["deviation" := deviation]>
  (<["magic" := magic]>
  (<["comment" := comment]>
  (<["type_time" := PInt mt5.ORDER_TIME_GTC]>
  (<["type_filling" := PInt type_filling]> ∅)))))))))).

(** [POST /position_close_partial] *)
Definition close_position_partial_endpoint (g : flask_g) (data : pyval)
    : M W view_return :=
  try_except
    (let invalid msg := ret (reply (validation_error_response g msg PNone)) in
     if negb (py_truthy data) then invalid "Position data is required" else
     let required_fields := ["ticket"; "symbol"; "volume"; "type"] in
     complete <~ lift (py_all_in required_fields data) ;;
     if negb complete then
       ret (reply (validation_error_response g "Missing required fields"
              (PDict (<["required" := PList (PStr <$> required_fields)]> ∅))))
     else
     match data with
     | PDict d =>
         ticket_v <~ lift (dict_getitem d "ticket") ;;
         ticket <~ lift (py_int ticket_v) ;;
         symbol <~ lift (dict_getitem d "symbol") ;;
         volume_v <~ lift (dict_getitem d "volume") ;;
         volume <~ lift (py_float volume_v) ;;
         type_v <~ lift (dict_getitem d "type") ;;
         position_type <~ lift (py_int type_v) ;;
         let deviation := dict_get d "deviation" (PInt 20) in
         let magic := dict_get d "magic" (PInt 0) in
         let comment := dict_get d "comment" (PStr "Partial close") in
         if Qleb volume 0 then invalid "Volume must be positive" else
         selectable <~ validate_symbol symbol ;;
         if negb selectable then
           invalid ("Symbol not found or not selectable: " +:+ py_str symbol)
         else
         positions <~ call (EvPositionsGet (PInt ticket))
                        (mt5_positions_get (PInt ticket)) ;;
         match positions with
         | None | Some [] =>
             invalid ("Position " +:+ str_of_Z ticket +:+ " not found")
         | Some (position :: _) =>
             if Qleb (pos_volume position) volume then
               invalid ("Volume to close (" +:+ repr_float volume
                        +:+ ") must be less than position volume ("
                        +:+ repr_float (pos_volume position)
                        +:+ "). Use /close_position to close entire position.")
             else
             tick <~ call (EvSymbolInfoTick symbol) (mt5_symbol_info_tick symbol) ;;
             match tick with
             | None => invalid ("Failed to get tick for " +:+ py_str symbol)
             | Some tick =>
                 if negb ((position_type =? 0)%Z || (position_type =? 1)%Z) then
                   invalid ("Invalid position type: " +:+ str_of_Z position_type
                            +:+ ". Must be 0 (BUY) or 1 (SELL)")
                 else
                 let order_type :=
                   if (position_type =? 0)%Z then mt5.ORDER_TYPE_SELL
                   else mt5.ORDER_TYPE_BUY in
                 let price :=
                   if (position_type =? 0)%Z then bid tick else ask tick in
                 type_filling <~ get_symbol_filling_mode symbol ;;
                 let request_data :=
                   partial_close_request ticket symbol volume order_type price
                     deviation magic comment type_filling in
                 result <~ call (EvOrderSend request_data)
                             (mt5_order_send request_data) ;;
                 match result with
                 | None =>
                     ret (RespNested (validation_error_response g
                            "Partial close failed - MT5 returned None" PNone) 400)
                 | Some result =>
                     if negb (retcode result =? mt5.TRADE_RETCODE_DONE)%Z then
                       r <~ mt5_error_response g "Partial close position" result ;;
                       ret (reply r)
                     else
                       ret (Resp
                              (<["message" :=
                                   PStr "Position partially closed successfully"]>
                              (<["result" := PDict (asdict result)]> ∅)) 200)
                 end
             end
         end
     | _ => raise (TypeError "indices must be integers")
     end)
    (fun e => ret (reply (internal_error_response g "close_position_partial" e))).

End PositionRoutes.

(** ** A scripted terminal, for running the code on concrete inputs *)

(** A terminal that answers every call from a fixed script and never
    changes: it knows one symbol, is either reachable or not, and gives one
    reply to every trade request. *)
Record terminal := {
  t_online : bool;
  t_symbol : string;
  t_info : SymbolInfo;
  t_tick : Tick;
  t_positions : list TradePosition;
  t_reply : option OrderSendResult;
  t_last_error : Z * string
}.

Definition knows (t : terminal) (symbol : pyval) : bool := is_PStr (t_symbol t) symbol.

#[export] Instance terminal_runtime : Runtime terminal := {|
  mt5_initialize t := (Ok (t_online t), t);
  mt5_shutdown t := (Ok tt, t);
  mt5_account_info t :=
    (Ok (if t_online t then Some {| login := 1; server := "Demo" |} else None), t);
  mt5_last_error t := (Ok (t_last_error t), t);
  mt5_symbol_select symbol _ t := (Ok (knows t symbol), t);
  mt5_symbol_info symbol t :=
    (Ok (if knows t symbol then Some (t_info t) else None), t);
  mt5_symbol_info_tick symbol t :=
    (Ok (if knows t symbol then Some (t_tick t) else None), t);
  mt5_positions_get ticket t :=
    (Ok (match ticket with
         | PInt z => Some (List.filter (fun p => (pos_ticket p =? z)%Z) (t_positions t))
         | _ => None
         end), t);
  mt5_orders_get _ t := (Ok (Some []), t);
  mt5_order_send _ t := (Ok (t_reply t), t);
  time_sleep _ t := t;
  repr_float q := str_of_Z (Qnum q) +:+ "/" +:+ str_of_Z (Zpos (Qden q));
  repr_container _ := "...";
  parse_float _ := None;
  parse_int _ := None
|}.

(** The table of constants.py as the inverse of [ORDER_TYPE_MAP]. *)
#[export] Instance plain_constants : Constants := {|
  ORDER_TYPE_TO_STRING :=
    <[0%Z := "BUY"]> (<[1%Z := "SELL"]> (<[2%Z := "BUY_LIMIT"]>
    (<[3%Z := "SELL_LIMIT"]> (<[4%Z := "BUY_STOP"]> (<[5%Z := "SELL_STOP"]> ∅)))));
  TRADE_ACTION_DEAL := mt5.TRADE_ACTION_DEAL;
  TRADE_ACTION_PENDING := mt5.TRADE_ACTION_PENDING
|}.

Definition EURUSD_info : SymbolInfo := {|
  volume_min := 1 # 100; volume_max := 100; volume_step := 1 # 100;
  point := 1 # 100000; trade_freeze_level := 10; filling_mode := 4
|}.

Definition EURUSD_tick : Tick := {| bid := 10848 # 10000; ask := 10850 # 10000 |}.

Definition done_reply : OrderSendResult := {|
  retcode := 10009; deal := 7; order := 8; volume := 1 # 10;
  price := 10850 # 10000; comment := "Request executed"
|}.

Definition market_closed_reply : OrderSendResult := {|
  retcode := 10018; deal := 0; order := 0; volume := 0; price := 0;
  comment := "Market closed"
|}.

Definition stepless_info : SymbolInfo := {|
  volume_min := 1 # 100; volume_max := 100; volume_step := 0;
  point := 1 # 100000; trade_freeze_level := 10; filling_mode := 4
|}.

Definition sell_position : TradePosition := {|
  pos_ticket := 42; pos_type := 1; pos_symbol := "EURUSD";
  pos_volume := 1; pos_magic := 0
|}.

Definition demo (online : bool) (reply : OrderSendResult) : terminal := {|
  t_online := online; t_symbol := "EURUSD"; t_info := EURUSD_info;
  t_tick := EURUSD_tick; t_positions := [sell_position];
  t_reply := Some reply; t_last_error := (1%Z, "Success")
|}.

Definition stepless (t : terminal) : terminal := {|
  t_online := t_online t; t_symbol := t_symbol t; t_info := stepless_info;
  t_tick := t_tick t; t_positions := t_positions t;
  t_reply := t_reply t; t_last_error := t_last_error t
|}.

Definition start (t : terminal) (status : ConnectionStatus) : process terminal :=
  Process t {| _status := status; _last_error := None;
               _max_reconnect_attempts := 3; _base_delay := 1 |}.

Definition no_g : flask_g := {| request_id := None |}.

Definition order_json (type : string) (extra : gmap string pyval) : pyval :=
  PDict (<["symbol" := PStr "EURUSD"]>
        (<["volume" := PFloat (1 # 10)]>
        (<["type" := PStr type]> extra))).

Definition close_json : pyval :=
  PDict (<["position" := PDict (<["ticket" := PInt 42]> ∅)]> ∅).

Definition partial_dict (type : Z) (volume : Q) : gmap string pyval :=
  <["ticket" := PInt 42]>
  (<["symbol" := PStr "EURUSD"]>
  (<["volume" := PFloat volume]>
  (<["type" := PInt type]> ∅))).

Definition partial_json (type : Z) (volume : Q) : pyval :=
  PDict (partial_dict type volume).

(** ** Notions used to state the properties *)

(** *** Connection lifecycle *)

Definition is_login_or_sleep (ev : event) : bool :=
  match ev with EvInitialize | EvSleep _ => true | _ => false end.


(** The connection record after a lost connection was noticed. *)
Definition lost (c : MT5Connection) (diagnostic : string) : MT5Connection :=
  {| _status := DISCONNECTED; _last_error := Some diagnostic;
     _max_reconnect_attempts := _max_reconnect_attempts c;
     _base_delay := _base_delay c |}.

Section ConnectionNotions.
Context {W : Type} `{RT : Runtime W}.

(** The next [n] passes of the loop of [initialize], entered with the
    counter at [attempt] in state [p], all fail to log in. *)
Fixpoint logins_fail (n : nat) (attempt : Z) (p : process W) : Prop :=
  match n with
  | O => True
  | S n' =>
      let attempt := (attempt + 1)%Z in
      let r := login_attempt attempt p in
      result r = Ok false
      /\ logins_fail n' attempt (final (backoff attempt (final r)))
  end.

(** A login at world [w] would go through: the handshake succeeds and
    the account probe that follows returns data. *)
Definition login_succeeds (w : W) : bool :=
  match mt5_initialize w with
  | (Ok true, w1) =>
      match mt5_account_info w1 with
      | (Ok (Some _), _) => true
      | _ => false
      end
  | _ => false
  end.

End ConnectionNotions.

(** *** Validators *)




(** *** Responses and trade requests *)

Definition error_types : list string :=
  ["validation_error"; "mt5_rejected"; "connection_error"; "not_found"].

Definition has_error_type (body : gmap string pyval) : Prop :=
  exists t, body !! "error_type" = Some (PStr t) /\ In t error_types.

Definition has_error (body : gmap string pyval) : Prop :=
  exists msg, body !! "error" = Some (PStr msg).

(** A property of every trade request a computation submits. *)
Definition sends_ok (good : gmap string pyval -> Prop) (ev : event) : Prop :=
  match ev with
  | EvOrderSend request => good request
  | _ => True
  end.

Definition emits {W A} (P : event -> Prop) (m : M W A) : Prop :=
  forall p, Forall P (events (m p)).

(** A property of every value a computation returns. *)
Definition returns {W A} (Q : A -> Prop) (m : M W A) : Prop :=
  forall p a, result (m p) = Ok a -> Q a.



(** The order type that flattens a position of the given type, and the
    side of the market it trades at. *)
Definition closing_order_type (position_type : Z) : Z :=
  if (position_type =? 0)%Z then mt5.ORDER_TYPE_SELL else mt5.ORDER_TYPE_BUY.


Section RequestNotions.
Context {W : Type} `{RT : Runtime W}.


End RequestNotions.

(** ** routes/health.py *)

Section HealthRoutes.
Context {W : Type} `{RT : Runtime W}.


(** [GET /health/live] *)
Definition liveness_check : M W view_return :=
  ret (Resp (<["status" := PStr "alive"]> ∅) 200).

End HealthRoutes.

(** ** More notions for the connection lifecycle *)

Section MoreConnectionNotions.
Context {W : Type} `{RT : Runtime W}.


(** What a boolean answer about the connection says of the manager:
    [true] goes with CONNECTED, [false] with DISCONNECTED and a
    diagnostic. *)
Definition answer_matches (b : bool) (c : MT5Connection) : Prop :=
  if b then _status c = CONNECTED
  else _status c = DISCONNECTED /\ exists msg, _last_error c = Some msg.

End MoreConnectionNotions.

(** ** More of routes/order.py and routes/position.py *)

(** [all(key not in data for key in keys)], as the chain of [and]s *)
Fixpoint py_none_in (keys : list string) (data : pyval) : outcome bool :=
  match keys with
  | [] => Ok true
  | k :: rest =>
      match py_contains k data with
      | Ok false => py_none_in rest data
      | Ok true => Ok false
      | Raise e => Raise e
      end
  end.

(** The [request_data] dict of [modify_order]. *)
Definition modify_request (ticket : Z) (new_price new_sl new_tp : Q)
    : gmap string pyval :=
  <["action" := PInt mt5.TRADE_ACTION_MODIFY]>
  (<["order" := PInt ticket]>
  (<["price" := PFloat new_price]>
  (<["sl" := PFloat new_sl]>
  (<["tp" := PFloat new_tp]>
  (<["type_time" := PInt mt5.ORDER_TIME_GTC]>
  (<["type_filling" := PInt mt5.ORDER_FILLING_RETURN]> ∅)))))).

(** The [request_data] dict of [modify_sl_tp_endpoint]. *)
Definition sltp_request (position sl tp : pyval) : gmap string pyval :=
  <["action" := PInt mt5.TRADE_ACTION_SLTP]>
  (<["position" := position]>
  (<["sl" := sl]>
  (<["tp" := tp]> ∅))).

Section MoreRoutes.
Context {W : Type} `{RT : Runtime W} `{CT : Constants}.

(** [float(data[key]) if key in data else current] *)
Definition float_or (d : gmap string pyval) (key : string) (current : Q)
    : outcome Q :=
  match d !! key with
  | Some v => py_float v
  | None => Ok current
  end.

(** [x if x > 0 else None] *)
Definition positive_or_None (x : Q) : option Q :=
  if Qltb 0 x then Some x else None.

(** [PUT /orders/<ticket>] *)
Definition modify_order (g : flask_g) (ticket : Z) (data : pyval)
    : M W view_return :=
  try_except
    (let invalid msg := ret (reply (validation_error_response g msg PNone)) in
     if negb (py_truthy data) then invalid "Modification data is required" else
     nothing <~ lift (py_none_in ["price"; "sl"; "tp"] data) ;;
     if nothing then
       invalid "At least one of price, sl, or tp must be provided"
     else
     orders <~ call (EvOrdersGet ticket) (mt5_orders_get ticket) ;;
     match orders with
     | None =>
         ret (Resp (<["error" := PStr "Failed to retrieve order information"]>
                   (<["error_type" := PStr "connection_error"]> ∅)) 503)
     | Some [] =>
         ret (Resp (<["error" := PStr ("Order with ticket " +:+ str_of_Z ticket
                                         +:+ " not found")]>
                   (<["error_type" := PStr "not_found"]> ∅)) 404)
     | Some (order :: _) =>
         match data with
         | PDict d =>
             new_price <~ lift (float_or d "price" (ord_price_open order)) ;;
             new_sl <~ lift (float_or d "sl" (ord_sl order)) ;;
             new_tp <~ lift (float_or d "tp" (ord_tp order)) ;;
             if Qleb new_price 0 then invalid "Price must be positive" else
             if Qltb new_sl 0 then
               invalid "Stop loss must be non-negative (use 0 to remove)"
             else
             if Qltb new_tp 0 then
               invalid "Take profit must be non-negative (use 0 to remove)"
             else
             checked <~ (if bool_decide (is_Some (d !! "price")) then
                           validate_pending_price (ord_type order)
                             (PStr (ord_symbol order)) new_price
                         else ret (true, None)) ;;
             if negb (fst checked) then invalid (default "" (snd checked)) else
             let checked :=
               if Qltb 0 new_sl || Qltb 0 new_tp then
                 validate_sl_tp (ord_type order) new_price
                   (positive_or_None new_sl) (positive_or_None new_tp)
               else (true, None) in
             if negb (fst checked) then invalid (default "" (snd checked)) else
             let request_data := modify_request ticket new_price new_sl new_tp in
             result <~ call (EvOrderSend request_data)
                         (mt5_order_send request_data) ;;
             match result with
             | None =>
                 ret (RespNested (validation_error_response g
                        "Order modification failed - MT5 returned None" PNone) 400)
             | Some result =>
                 if negb (retcode result =? mt5.TRADE_RETCODE_DONE)%Z then
                   r <~ mt5_error_response g "Modify order" result ;;
                   ret (reply r)
                 else
                   ret (Resp (<["message" := PStr "Order modified successfully"]>
                             (<["result" := PDict (asdict result)]> ∅)) 200)
             end
         | _ => raise (TypeError "indices must be integers")
         end
     end)
    (fun e => ret (reply (internal_error_response g "modify_order" e))).

(** [POST /modify_sl_tp] *)
Definition modify_sl_tp_endpoint (g : flask_g) (data : pyval)
    : M W view_return :=
  try_except
    (let invalid msg := ret (reply (validation_error_response g msg PNone)) in
     if negb (py_truthy data) then invalid "Position data is required" else
     has_position <~ lift (py_contains "position" data) ;;
     if negb has_position then invalid "Position data is required" else
     match data with
     | PDict d =>
         position <~ lift (dict_getitem d "position") ;;
         let sl := dict_get d "sl" PNone in
         let tp := dict_get d "tp" PNone in
         let request_data := sltp_request position sl tp in
         result <~ call (EvOrderSend request_data)
                     (mt5_order_send request_data) ;;
         match result with
         | None => invalid "Modify SL/TP failed - MT5 returned None"
         | Some result =>
             if negb (retcode result =? mt5.TRADE_RETCODE_DONE)%Z then
               r <~ mt5_error_response g "Modify SL/TP" result ;;
               ret (reply r)
             else
               ret (Resp (<["message" := PStr "SL/TP modified successfully"]>
                         (<["result" := PDict (asdict result)]> ∅)) 200)
         end
     | _ => raise (TypeError "indices must be integers")
     end)
    (fun e => ret (reply (internal_error_response g "modify_sl_tp" e))).

End MoreRoutes.

(** ** A second scripted terminal: one that refuses the first logins and
    holds pending orders *)

Record desk := {
  d_refusals : nat;
  d_orders : list TradeOrder;
  d_terminal : terminal
}.

#[export] Instance desk_runtime : Runtime desk | 100 := {|
  mt5_initialize d :=
    match d_refusals d with
    | O => (Ok true, d)
    | S n => (Ok false, {| d_refusals := n; d_orders := d_orders d;
                           d_terminal := d_terminal d |})
    end;
  mt5_shutdown d := (Ok tt, d);
  mt5_account_info d := (fst (mt5_account_info (d_terminal d)), d);
  mt5_last_error d := (fst (mt5_last_error (d_terminal d)), d);
  mt5_symbol_select symbol enable d :=
    (fst (mt5_symbol_select symbol enable (d_terminal d)), d);
  mt5_symbol_info symbol d := (fst (mt5_symbol_info symbol (d_terminal d)), d);
  mt5_symbol_info_tick symbol d :=
    (fst (mt5_symbol_info_tick symbol (d_terminal d)), d);
  mt5_positions_get ticket d := (fst (mt5_positions_get ticket (d_terminal d)), d);
  mt5_orders_get ticket d :=
    (Ok (Some (List.filter (fun o => (ord_ticket o =? ticket)%Z) (d_orders d))), d);
  mt5_order_send request d := (fst (mt5_order_send request (d_terminal d)), d);
  time_sleep _ d := d;
  repr_float := repr_float (W:=terminal);
  repr_container := repr_container (W:=terminal);
  parse_float := parse_float (W:=terminal);
  parse_int := parse_int (W:=terminal)
|}.




(** ** Notions for what the routes submit *)

Definition is_order_send (ev : event) : bool :=
  match ev with EvOrderSend _ => true | _ => false end.

(** The number of trade requests among the calls made. *)
Definition order_sends (t : list event) : nat :=
  length (List.filter is_order_send t).

Definition is_success (v : view_return) : Prop :=
  match v with
  | Resp _ status => status = 200%Z
  | RespNested _ _ => False
  end.

(** A computation that submits no trade request. *)
Definition quiet {W A} (m : M W A) : Prop :=
  forall p, order_sends (events (m p)) = 0.

(** A computation that submits at most one trade request, and exactly
    one whenever it returns a value of the kind [good]. *)
Definition one_shot {W A} (good : A -> Prop) (m : M W A) : Prop :=
  forall p,
    order_sends (events (m p)) <= 1
    /\ forall a, result (m p) = Ok a -> good a -> order_sends (events (m p)) = 1.

(** A computation that returns a value: no exception leaves it. *)
Definition answers {W A} (m : M W A) : Prop :=
  forall p, exists a, result (m p) = Ok a.

(** The mask value that stands for a filling mode in the capability
    bitmask of a symbol: FOK is 1, IOC is 2, RETURN is 4. *)
Definition filling_flag (mode : Z) : Z :=
  if (mode =? mt5.ORDER_FILLING_FOK)%Z then 1
  else if (mode =? mt5.ORDER_FILLING_IOC)%Z then 2
  else 4.



(** The trade request that flattens the position [live] held under
    [ticket]: a deal of the opposite type for the whole open volume,
    carrying the magic number of the position. *)
Definition closes_live (ticket : pyval) (live : TradePosition)
    (deviation comment : pyval) (request : gmap string pyval) : Prop :=
  request !! "action" = Some (PInt mt5.TRADE_ACTION_DEAL)
  /\ request !! "position" = Some ticket
  /\ request !! "symbol" = Some (PStr (pos_symbol live))
  /\ request !! "volume" = Some (PFloat (pos_volume live))
  /\ request !! "type" = Some (PInt (closing_order_type (pos_type live)))
  /\ request !! "magic" = Some (PInt (pos_magic live))
  /\ request !! "deviation" = Some deviation
  /\ request !! "comment" = Some comment.




(** ** middleware.py *)




(** * Properties *)

(** ** Comparisons and rounding *)


Lemma Qltb_ge (a b : Q) : Qltb a b = false <-> (b <= a)%Q.
Proof. unfold Qltb. rewrite negb_false_iff. apply Qle_bool_iff. Qed.









(** ** The process monad *)

Section MonadLaws.
Context {W : Type}.

Lemma run_eta {A} (r : run W A) : Run (result r) (final r) (events r) = r.
Proof. destruct r; reflexivity. Qed.

Lemma bind_ok {A B} (m : M W A) (k : A -> M W B) (p : process W) (a : A) :
  result (m p) = Ok a ->
  bind m k p
  = Run (result (k a (final (m p)))) (final (k a (final (m p))))
        (events (m p) ++ events (k a (final (m p)))).
Proof.
  unfold bind. destruct (m p) as [[a'|e] p1 t1]; cbn; intros [= ->].
  destruct (k a p1); reflexivity.
Qed.

Lemma bind_run {A B} (m : M W A) (k : A -> M W B) (p p1 : process W)
    (a : A) (t1 : list event) :
  m p = Run (Ok a) p1 t1 ->
  bind m k p = Run (result (k a p1)) (final (k a p1)) (t1 ++ events (k a p1)).
Proof. intros H. unfold bind. rewrite H. destruct (k a p1); reflexivity. Qed.

Lemma bind_lift_ok {A B} (a : A) (k : A -> M W B) (p : process W) :
  bind (lift (Ok a)) k p = k a p.
Proof. unfold bind, lift. destruct (k a p); reflexivity. Qed.

Lemma bind_ret {A B} (a : A) (k : A -> M W B) (p : process W) :
  bind (ret a) k p = k a p.
Proof. unfold bind, ret. destruct (k a p); reflexivity. Qed.

Lemma bind_get_conn {B} (k : MT5Connection -> M W B) (p : process W) :
  bind get_conn k p = k (conn p) p.
Proof. unfold bind, get_conn. destruct (k (conn p) p); reflexivity. Qed.

Lemma bind_call_ok {A B} (ev : event) (f : W -> outcome A * W)
    (k : A -> M W B) (p : process W) (a : A) (w' : W) :
  f (world p) = (Ok a, w') ->
  bind (call ev f) k p
  = Run (result (k a (Process w' (conn p)))) (final (k a (Process w' (conn p))))
        (ev :: events (k a (Process w' (conn p)))).
Proof.
  intros H. unfold bind, call. rewrite H.
  destruct (k a (Process w' (conn p))); reflexivity.
Qed.

Lemma try_except_ok {A} (m : M W A) (h : exn -> M W A) (p : process W) (a : A) :
  result (m p) = Ok a -> try_except m h p = m p.
Proof.
  unfold try_except. destruct (m p) as [[a'|e] p1 t1]; cbn; intros [= ->].
  reflexivity.
Qed.

Lemma emits_ret {A} P (a : A) : emits (W:=W) P (ret a).
Proof. intros p. constructor. Qed.

Lemma emits_raise {A} P (e : exn) : emits (W:=W) (A:=A) P (raise e).
Proof. intros p. constructor. Qed.

Lemma emits_lift {A} P (o : outcome A) : emits (W:=W) P (lift o).
Proof. intros p. constructor. Qed.

Lemma emits_call {A} (P : event -> Prop) ev (f : W -> outcome A * W) :
  P ev -> emits P (call ev f).
Proof.
  intros H p. unfold call. destruct (f (world p)). cbn.
  constructor; [exact H|constructor].
Qed.

Lemma emits_bind {A B} P (m : M W A) (k : A -> M W B) :
  emits P m -> (forall a, emits P (k a)) -> emits P (bind m k).
Proof.
  intros Hm Hk p. unfold bind. specialize (Hm p).
  destruct (m p) as [[a|e] p1 t1]; cbn in *; [|exact Hm].
  specialize (Hk a p1). destruct (k a p1). cbn in *.
  apply Forall_app. split; assumption.
Qed.

Lemma emits_try {A} P (m : M W A) (h : exn -> M W A) :
  emits P m -> (forall e, emits P (h e)) -> emits P (try_except m h).
Proof.
  intros Hm Hh p. unfold try_except. specialize (Hm p).
  destruct (m p) as [[a|e] p1 t1]; cbn in *; [exact Hm|].
  specialize (Hh e p1). destruct (h e p1). cbn in *.
  apply Forall_app. split; assumption.
Qed.

Lemma returns_ret {A} (Q : A -> Prop) (a : A) : Q a -> returns (W:=W) Q (ret a).
Proof. intros H p a' [= <-]. exact H. Qed.

Lemma returns_raise {A} (Q : A -> Prop) (e : exn) : returns (W:=W) Q (raise e).
Proof. intros p a. discriminate. Qed.

Lemma returns_bind {A B} (Q : B -> Prop) (m : M W A) (k : A -> M W B) :
  (forall a, returns Q (k a)) -> returns Q (bind m k).
Proof.
  intros Hk p b. unfold bind.
  destruct (m p) as [[a|e] p1 t1]; [|discriminate].
  specialize (Hk a p1 b). destruct (k a p1). exact Hk.
Qed.

(** What the continuation emits may depend on what was returned. *)
Lemma emits_bind_returns {A B} P (Q : A -> Prop) (m : M W A) (k : A -> M W B) :
  emits P m -> returns Q m -> (forall a, Q a -> emits P (k a)) ->
  emits P (bind m k).
Proof.
  intros Hm Hr Hk p. unfold bind. specialize (Hm p). specialize (Hr p).
  destruct (m p) as [[a|e] p1 t1]; cbn in *; [|exact Hm].
  specialize (Hk a (Hr a eq_refl) p1). destruct (k a p1). cbn in *.
  apply Forall_app. split; assumption.
Qed.

End MonadLaws.

(** One step of a proof that a computation emits only events of some
    kind, following the shape of the code. *)
Ltac emits_step :=
  cbn zeta;
  match goal with
  | |- emits _ (bind _ _) => apply emits_bind; [|intros ?]
  | |- emits _ (try_except _ _) => apply emits_try; [|intros ?]
  | |- emits _ (ret _) => apply emits_ret
  | |- emits _ (raise _) => apply emits_raise
  | |- emits _ (lift _) => apply emits_lift
  | |- emits _ (call _ _) =>
      apply emits_call; first [exact I | reflexivity | discriminate]
  | |- emits _ (if ?b then _ else _) => destruct b
  | |- emits _ (match ?x with _ => _ end) => destruct x
  end.

(** The same for what a computation returns. *)
Ltac returns_step :=
  cbn zeta;
  match goal with
  | |- returns _ (bind _ _) => apply returns_bind; intros ?
  | |- returns _ (raise _) => apply returns_raise
  | |- returns _ (if ?b then _ else _) => destruct b eqn:?
  | |- returns _ (match ?x with _ => _ end) => destruct x
  end.

(** ** Connection lifecycle *)

Section ConnectionProperties.
Context {W : Type} `{RT : Runtime W}.

Ltac case_call :=
  match goal with
  | |- context [mt5_initialize ?w] =>
      destruct (mt5_initialize w) as [[[|]|?] ?]
  | |- context [mt5_account_info ?w] =>
      destruct (mt5_account_info w) as [[[?|]|?] ?]
  | |- context [mt5_last_error ?w] =>
      destruct (mt5_last_error w) as [[?|?] ?]
  end; cbn -[String.append str_of_Z].

(** Whatever the terminal answers, one pass of the loop logs in exactly
    once, does not sleep, returns, and leaves the settings alone. *)
Lemma login_attempt_frame (attempt : Z) (p : process W) :
  let r := login_attempt attempt p in
  _max_reconnect_attempts (conn (final r)) = _max_reconnect_attempts (conn p)
  /\ _base_delay (conn (final r)) = _base_delay (conn p)
  /\ List.filter is_login_or_sleep (events r) = [EvInitialize]
  /\ exists b, result r = Ok b.
Proof.
  unfold login_attempt, record_failure, bind, try_except, get_conn, call,
    _set_status, ret.
  destruct (1 <? attempt)%Z; cbn -[String.append str_of_Z]; repeat case_call; eauto.
Qed.

Lemma login_attempt_fails (attempt : Z) (p : process W) :
  login_succeeds (world p) = false -> result (login_attempt attempt p) = Ok false.
Proof.
  unfold login_succeeds, login_attempt, record_failure, bind, try_except,
    get_conn, call, _set_status, ret.
  destruct (1 <? attempt)%Z; cbn -[String.append str_of_Z];
    repeat case_call; congruence.
Qed.

(** Against a terminal that never lets a login through, every attempt
    fails. *)
Lemma terminal_down_logins_fail :
  (forall w : W, login_succeeds w = false) ->
  forall (n : nat) (attempt : Z) (p : process W), logins_fail n attempt p.
Proof.
  intros Hdown. induction n as [|n IH]; intros attempt p; [exact I|].
  cbn [logins_fail]. split; [apply login_attempt_fails, Hdown|apply IH].
Qed.

Lemma backoff_run (attempt : Z) (p : process W) :
  backoff attempt p
  = if (attempt <? _max_reconnect_attempts (conn p))%Z
    then
      let delay := (_base_delay (conn p) * inject_Z (2 ^ (attempt - 1)))%Q in
      Run (Ok tt) (Process (time_sleep delay (world p)) (conn p)) [EvSleep delay]
    else Run (Ok tt) p [].
Proof.
  unfold backoff. rewrite bind_get_conn.
  destruct (attempt <? _max_reconnect_attempts (conn p))%Z; reflexivity.
Qed.

Lemma give_up_run (p : process W) :
  give_up_initialize p
  = Run (Ok false)
      (Process (world p)
         (lost (conn p)
            ("Failed to initialize MT5 after "
               +:+ str_of_Z (_max_reconnect_attempts (conn p)) +:+ " attempts")))
      [].
Proof. reflexivity. Qed.



Lemma backoff_frame (attempt : Z) (p : process W) :
  exists p2 t, backoff attempt p = Run (Ok tt) p2 t /\ conn p2 = conn p.
Proof.
  rewrite backoff_run.
  destruct (attempt <? _max_reconnect_attempts (conn p))%Z;
    eexists; eexists; split; reflexivity.
Qed.

(** With fuel for the attempts that remain the loop returns. *)
Lemma initialize_loop_returns (n : nat) :
  forall (a : Z) (p : process W),
    (_max_reconnect_attempts (conn p) - a <= Z.of_nat n)%Z ->
    exists b, result (initialize_loop n a p) = Ok b.
Proof.
  induction n as [|n IH]; intros a p Hfuel.
  - cbn [initialize_loop]. rewrite bind_get_conn.
    destruct (a <? _max_reconnect_attempts (conn p))%Z eqn:E.
    + apply Z.ltb_lt in E. lia.
    + eexists. reflexivity.
  - change (initialize_loop (S n) a p) with
      (bind get_conn (fun c =>
         if (a <? _max_reconnect_attempts c)%Z then
           bind (login_attempt (a + 1)) (fun connected =>
             if connected then ret true
             else bind (backoff (a + 1)) (fun _ => initialize_loop n (a + 1)))
         else give_up_initialize) p).
    rewrite bind_get_conn.
    destruct (a <? _max_reconnect_attempts (conn p))%Z eqn:E;
      [|eexists; reflexivity].
    destruct (login_attempt_frame (a + 1) p) as (Hm & _ & _ & [b Hb]).
    rewrite (bind_ok _ _ _ _ Hb). cbn [result].
    destruct b; [eexists; reflexivity|].
    destruct (backoff_frame (a + 1) (final (login_attempt (a + 1) p)))
      as (p2 & t2 & Hrun & Hc).
    rewrite (bind_run _ _ _ _ _ _ Hrun). cbn [result].
    apply IH. rewrite Hc, Hm. lia.
Qed.

(** [initialize] always returns True or False: the loop of the model
    never runs out of fuel. *)
Lemma initialize_returns (p : process W) : exists b, result (initialize p) = Ok b.
Proof.
  unfold initialize. rewrite bind_get_conn.
  apply initialize_loop_returns. lia.
Qed.


(** C7.  [ensure_connection] on a CONNECTED manager probes the account
    info: if data comes back it returns success, changes neither status
    nor last error, and its only call is the probe (no login attempt);
    if the probe returns nothing or raises, the manager is set to
    DISCONNECTED with a diagnostic and the result is that of
    [initialize] run from there.  On a manager that is not CONNECTED it
    is [initialize]. *)
Theorem ensure_connection_cases (p : process W) :
  (forall (account : AccountInfo) (w' : W),
      _status (conn p) = CONNECTED ->
      mt5_account_info (world p) = (Ok (Some account), w') ->
      ensure_connection p = Run (Ok true) (Process w' (conn p)) [EvAccountInfo])
  /\ (forall w' : W,
      _status (conn p) = CONNECTED ->
      mt5_account_info (world p) = (Ok None, w') ->
      let r := initialize (Process w' (lost (conn p) "Connection lost")) in
      ensure_connection p = Run (result r) (final r) (EvAccountInfo :: events r))
  /\ (forall (e : exn) (w' : W),
      _status (conn p) = CONNECTED ->
      mt5_account_info (world p) = (Raise e, w') ->
      let r := initialize (Process w' (lost (conn p) (exn_msg e))) in
      ensure_connection p = Run (result r) (final r) (EvAccountInfo :: events r))
  /\ (_status (conn p) <> CONNECTED -> ensure_connection p = initialize p).
Proof.
  unfold ensure_connection, is_connected, lost.
  repeat split.
  - intros account w' Hs Hprobe.
    unfold bind, try_except, get_conn, call, ret. cbn. rewrite Hs. cbn.
    rewrite Hprobe. reflexivity.
  - intros w' Hs Hprobe.
    unfold bind, try_except, get_conn, call, ret, _set_status.
    cbn -[initialize]. rewrite Hs. cbn -[initialize].
    rewrite Hprobe. cbn -[initialize].
    destruct (initialize _); reflexivity.
  - intros e w' Hs Hprobe.
    unfold bind, try_except, get_conn, call, ret, _set_status.
    cbn -[initialize]. rewrite Hs. cbn -[initialize].
    rewrite Hprobe. cbn -[initialize].
    destruct (initialize _); reflexivity.
  - intros Hs.
    unfold bind, try_except, get_conn, call, ret. cbn -[initialize].
    destruct (_status (conn p)); try contradiction; cbn -[initialize];
      destruct (initialize p); reflexivity.
Qed.

(** [shutdown] always leaves the manager DISCONNECTED, and on a manager
    that already is it calls nothing: it can be repeated. *)
Lemma shutdown_disconnects (p : process W) :
  result (shutdown p) = Ok tt
  /\ _status (conn (final (shutdown p))) = DISCONNECTED
  /\ (_status (conn p) = DISCONNECTED -> shutdown p = Run (Ok tt) p []).
Proof.
  unfold shutdown, bind, try_except, get_conn, call, ret, _set_status.
  cbn. destruct (_status (conn p)) eqn:E; cbn;
    try (destruct (mt5_shutdown (world p)) as [[[]|e] w']; cbn);
    repeat split; intros; try reflexivity; try assumption; discriminate.
Qed.

End ConnectionProperties.


(** A live terminal is probed once and nothing else happens; a dead one
    is noticed, and a manager that was never connected logs in. *)
Lemma ensure_connection_witness :
  let up := start (demo true done_reply) CONNECTED in
  let down := start (demo false done_reply) CONNECTED in
  let fresh := start (demo true done_reply) DISCONNECTED in
  ensure_connection up = Run (Ok true) up [EvAccountInfo]
  /\ result (ensure_connection down) = Ok false
  /\ _status (conn (final (ensure_connection down))) = DISCONNECTED
  /\ ensure_connection fresh = initialize fresh.
Proof.
  intros up down fresh.
  destruct (ensure_connection_cases up) as (Hup & _).
  destruct (ensure_connection_cases down) as (_ & Hdown & _).
  destruct (ensure_connection_cases fresh) as (_ & _ & _ & Hfresh).
  split; [eapply Hup; reflexivity|].
  rewrite (Hdown (world down) eq_refl eq_refl).
  split; [vm_compute; reflexivity|].
  split; [vm_compute; reflexivity|].
  apply Hfresh. discriminate.
Defined.

(** ** Order validation *)

Section ValidatorProperties.
Context {W : Type} `{RT : Runtime W} `{CT : Constants}.

Lemma validate_volume_run (symbol : pyval) (volume : Q) (p : process W)
    (si : SymbolInfo) (w' : W) :
  mt5_symbol_info symbol (world p) = (Ok (Some si), w') ->
  validate_volume symbol volume p
  = Run (check_volume si volume) (Process w' (conn p)) [EvSymbolInfo symbol].
Proof.
  intros H. unfold validate_volume, bind, call, lift. simpl. rewrite H. reflexivity.
Qed.





(** C10.  For a symbol whose volume_step is zero or negative,
    [validate_volume] does not reach the division: its verdict is the
    same for every division operator, even one that always raises; it
    accepts every volume within [volume_min, volume_max] and rejects
    the others. *)
Theorem validate_volume_nonpositive_step (symbol : pyval) (volume : Q)
    (p : process W) (si : SymbolInfo) (w' : W) :
  mt5_symbol_info symbol (world p) = (Ok (Some si), w') ->
  (volume_step si <= 0)%Q ->
  let verdict := result (validate_volume symbol volume p) in
  (forall div : Q -> Q -> outcome Q,
      check_volume_with div si volume = check_volume si volume)
  /\ ((volume_min si <= volume <= volume_max si)%Q -> verdict = Ok (true, None))
  /\ ((volume < volume_min si \/ volume_max si < volume)%Q ->
      exists msg, verdict = Ok (false, Some msg)).
Proof.
  intros Hinfo Hstep verdict. subst verdict.
  rewrite (validate_volume_run _ _ _ _ _ Hinfo). cbn [result].
  assert (Hguard : Qltb 0 (volume_step si) = false) by (apply Qltb_ge; exact Hstep).
  unfold check_volume, check_volume_with. rewrite Hguard.
  split; [reflexivity|split].
  - intros [Hlo Hhi]. apply Qltb_ge in Hlo, Hhi. rewrite Hlo, Hhi. reflexivity.
  - intros Hout.
    destruct (Qltb volume (volume_min si)) eqn:E1; [eexists; reflexivity|].
    destruct (Qltb (volume_max si) volume) eqn:E2; [eexists; reflexivity|].
    apply Qltb_ge in E1, E2. exfalso. destruct Hout; lra.
Qed.



End ValidatorProperties.



(** With a zero step any volume between the bounds passes. *)
Lemma validate_volume_nonpositive_step_witness :
  let p := start (stepless (demo true done_reply)) CONNECTED in
  mt5_symbol_info (PStr "EURUSD") (world p) = (Ok (Some stepless_info), world p)
  /\ (volume_step stepless_info <= 0)%Q
  /\ result (validate_volume (PStr "EURUSD") (12345 # 100000) p) = Ok (true, None).
Proof.
  intros p.
  assert (H1 : mt5_symbol_info (PStr "EURUSD") (world p)
               = (Ok (Some stepless_info), world p)) by reflexivity.
  assert (H2 : (volume_step stepless_info <= 0)%Q) by discriminate.
  destruct (validate_volume_nonpositive_step (PStr "EURUSD") (12345 # 100000) p
              stepless_info (world p) H1 H2) as (_ & Hin & _).
  split; [exact H1|]. split; [exact H2|].
  apply Hin. split; discriminate.
Defined.


(** ** Error envelopes and result classification *)

Section EnvelopeProperties.
Context {W : Type} `{RT : Runtime W} `{CT : Constants}.

Lemma add_request_id_lookup (rid : option string) (body : gmap string pyval)
    (key : string) :
  key <> "request_id" -> add_request_id rid body !! key = body !! key.
Proof.
  intros Hne. unfold add_request_id.
  destruct rid as [rid|]; [|reflexivity].
  destruct (py_truthy (PStr rid)); [|reflexivity].
  apply lookup_insert_ne. congruence.
Qed.

Lemma add_request_id_dom (rid : option string) (body : gmap string pyval) :
  dom (add_request_id rid body) ⊆ {["request_id"]} ∪ dom body.
Proof.
  unfold add_request_id. destruct rid as [rid|]; [|set_solver].
  destruct (py_truthy (PStr rid)); [|set_solver].
  rewrite dom_insert_L. set_solver.
Qed.

(** The fields an envelope may have. *)
Lemma validation_error_response_keys g message details :
  dom (fst (validation_error_response g message details))
  ⊆ ({["error"; "error_type"; "details"; "request_id"]} : gset string).
Proof.
  unfold validation_error_response. cbn [fst].
  etrans; [apply add_request_id_dom|].
  destruct (py_truthy details); rewrite ?dom_insert_L, dom_empty_L; set_solver.
Qed.

Lemma not_found_response_keys g resource identifier :
  dom (fst (not_found_response g resource identifier))
  ⊆ ({["error"; "error_type"; "request_id"]} : gset string).
Proof.
  unfold not_found_response. cbn [fst].
  etrans; [apply add_request_id_dom|].
  rewrite ?dom_insert_L, dom_empty_L. set_solver.
Qed.

Lemma internal_error_response_keys g operation exception :
  dom (fst (internal_error_response g operation exception))
  ⊆ ({["error"; "operation"; "detail"; "request_id"]} : gset string).
Proof.
  unfold internal_error_response. cbn [fst].
  etrans; [apply add_request_id_dom|].
  rewrite ?dom_insert_L, dom_empty_L. set_solver.
Qed.

(** The classification made by [mt5_error_response]: 503 and
    connection_error exactly when the last error code of the terminal
    is 10004, 10005 or 10006 or the return code of the result is 10018,
    10019 or 10020; 400 and mt5_rejected otherwise. *)
Lemma mt5_error_response_run (g : flask_g) (operation : string)
    (res : OrderSendResult) (p : process W) (code : Z) (text : string) (w' : W) :
  mt5_last_error (world p) = (Ok (code, text), w') ->
  let connection_fault :=
    Z_in code [10004; 10005; 10006]%Z
    || Z_in (retcode res) [10018; 10019; 10020]%Z in
  exists body,
    mt5_error_response g operation res p
    = Run (Ok (body, if connection_fault then 503 else 400)%Z)
          (Process w' (conn p)) [EvLastError]
    /\ body !! "error" = Some (PStr (operation +:+ " failed: " +:+ comment res))
    /\ body !! "error_type"
       = Some (PStr (if connection_fault then "connection_error"
                     else "mt5_rejected"))
    /\ dom body ⊆ {["error"; "error_type"; "mt5_error"; "request_id"]}.
Proof.
  intros Hle connection_fault.
  unfold mt5_error_response, bind, call, ret. rewrite Hle.
  cbn -[String.append Z_in add_request_id]. fold connection_fault.
  eexists. split; [reflexivity|].
  split; [rewrite add_request_id_lookup by discriminate; reflexivity|].
  split; [rewrite add_request_id_lookup by discriminate; reflexivity|].
  etrans; [apply add_request_id_dom|].
  rewrite ?dom_insert_L, dom_empty_L. set_solver.
Qed.

(** C3 (as the code has it).  The envelopes built by
    [validation_error_response], [not_found_response] and
    [mt5_error_response] carry an error message and an error_type, which
    is validation_error, not_found, and mt5_rejected (with 400) or
    connection_error (with 503) respectively, and besides these at most
    details, mt5_error and request_id; the envelope built by
    [internal_error_response] (500) carries error, operation and detail,
    at most a request_id besides, and no error_type. *)
Theorem error_envelopes (g : flask_g) :
  (forall message details,
      let r := validation_error_response g message details in
      snd r = 400%Z
      /\ fst r !! "error" = Some (PStr message)
      /\ fst r !! "error_type" = Some (PStr "validation_error")
      /\ dom (fst r) ⊆ {["error"; "error_type"; "details"; "request_id"]})
  /\ (forall resource identifier,
      let r := not_found_response g resource identifier in
      snd r = 404%Z
      /\ has_error (fst r)
      /\ fst r !! "error_type" = Some (PStr "not_found")
      /\ dom (fst r) ⊆ {["error"; "error_type"; "request_id"]})
  /\ (forall operation res (p : process W) body status,
      result (mt5_error_response g operation res p) = Ok (body, status) ->
      has_error body
      /\ has_error_type body
      /\ dom body ⊆ {["error"; "error_type"; "mt5_error"; "request_id"]}
      /\ ((status = 400%Z /\ body !! "error_type" = Some (PStr "mt5_rejected"))
          \/ (status = 503%Z
              /\ body !! "error_type" = Some (PStr "connection_error"))))
  /\ (forall operation exception,
      let r := internal_error_response g operation exception in
      snd r = 500%Z
      /\ fst r !! "error" = Some (PStr "Internal server error")
      /\ fst r !! "operation" = Some (PStr operation)
      /\ fst r !! "detail" = Some (PStr (exn_msg exception))
      /\ fst r !! "error_type" = None
      /\ dom (fst r) ⊆ {["error"; "operation"; "detail"; "request_id"]}).
Proof.
  split; [|split; [|split]].
  - intros message details r.
    split; [|split; [|split]];
      [| | | apply validation_error_response_keys];
      subst r; unfold validation_error_response; cbn [fst snd];
      rewrite ?add_request_id_lookup by discriminate;
      destruct (py_truthy details); reflexivity.
  - intros resource identifier r.
    split; [|split; [|split]];
      [| | | apply not_found_response_keys];
      subst r; unfold not_found_response, has_error; cbn [fst snd];
      rewrite ?add_request_id_lookup by discriminate;
      try reflexivity.
    eexists. reflexivity.
  - intros operation res p body status.
    destruct (mt5_last_error (world p)) as [[[code text]|e] w'] eqn:Hle.
    + destruct (mt5_error_response_run g operation res p code text w' Hle)
        as (body' & Hrun & He & Ht & Hdom).
      rewrite Hrun. cbn [result]. intros [= <- <-].
      split; [eexists; exact He|].
      unfold has_error_type, error_types. rewrite Ht.
      destruct (_ || _).
      * split; [eexists; split; [reflexivity|cbn; auto]|].
        split; [exact Hdom|]. right. split; reflexivity.
      * split; [eexists; split; [reflexivity|cbn; auto]|].
        split; [exact Hdom|]. left. split; reflexivity.
    + unfold mt5_error_response, bind, call. rewrite Hle. cbn. discriminate.
  - intros operation exception r.
    split; [|split; [|split; [|split; [|split]]]];
      [| | | | | apply internal_error_response_keys];
      subst r; unfold internal_error_response; cbn [fst snd];
      rewrite ?add_request_id_lookup by discriminate; reflexivity.
Qed.

(** The gate in front of every route: without a connection the answer
    is 503 with error, detail and mt5_status, and the route is not run. *)
Lemma require_mt5_connection_gate (g : flask_g) (f : M W view_return)
    (p : process W) :
  (result (ensure_connection p) = Ok false ->
     exists body,
       result (require_mt5_connection g f p) = Ok (Resp body 503)
       /\ body !! "error" = Some (PStr "MT5 unavailable")
       /\ body !! "mt5_status"
          = Some (PStr (status_value (_status (conn (final (ensure_connection p))))))
       /\ body !! "error_type" = None)
  /\ (result (ensure_connection p) = Ok true ->
      result (require_mt5_connection g f p)
      = result (f (final (ensure_connection p)))).
Proof.
  unfold require_mt5_connection. split; intros Hok.
  - rewrite (bind_ok _ _ _ _ Hok). cbn [negb result].
    unfold get_last_error, get_status, bind, get_conn, ret. cbn [result final].
    eexists. split; [reflexivity|].
    rewrite !add_request_id_lookup by discriminate.
    repeat split; reflexivity.
  - rewrite (bind_ok _ _ _ _ Hok). reflexivity.
Qed.

End EnvelopeProperties.

(** ** The close route *)

Section CloseProperties.
Context {W : Type} `{RT : Runtime W} `{CT : Constants}.

(** [close_position] returns a result only when its return code is
    DONE: every other one has become None. *)
Lemma close_position_returns_done (position deviation magic comment : pyval) :
  returns (W:=W)
    (fun r => forall res, r = Some res -> retcode res = mt5.TRADE_RETCODE_DONE)
    (close_position position deviation magic comment).
Proof.
  unfold close_position.
  repeat first
    [ solve [apply returns_ret; intros ? [=]]
    | returns_step ].
  apply returns_ret. intros res [= <-].
  match goal with
  | H : negb _ = false |- _ => apply negb_false_iff, Z.eqb_eq in H; exact H
  end.
Qed.

Lemma close_position_emits (position deviation magic comment : pyval) :
  emits (W:=W) (fun ev => ev <> EvLastError)
    (close_position position deviation magic comment).
Proof.
  unfold close_position, validate_symbol, get_symbol_filling_mode.
  repeat emits_step.
Qed.

(** So the close route never asks the terminal for its last error: the
    classification it holds for a non-success return code cannot be
    reached. *)
Lemma close_route_never_classifies (g : flask_g) (data : pyval) (p : process W) :
  Forall (fun ev => ev <> EvLastError) (events (close_position_endpoint g data p)).
Proof.
  revert p.
  change (emits (fun ev => ev <> EvLastError) (close_position_endpoint g data)).
  unfold close_position_endpoint.
  apply emits_try; [|intros; apply emits_ret].
  cbn zeta. destruct (negb (py_truthy data)); [apply emits_ret|].
  apply emits_bind; [apply emits_lift|intros has_position].
  destruct (negb has_position); [apply emits_ret|].
  destruct data; try apply emits_raise.
  apply emits_bind; [apply emits_lift|intros position].
  eapply emits_bind_returns;
    [apply close_position_emits | apply close_position_returns_done |].
  intros [res|] Hres; [|apply emits_ret].
  rewrite (Hres res eq_refl). cbn [negb Z.eqb]. 
  rewrite Z.eqb_refl. apply emits_ret.
Qed.

End CloseProperties.

(** The terminal reports return code 10018 for a refused request: the
    envelope is classified connection_error. *)
Lemma error_envelopes_witness :
  let p := start (demo true market_closed_reply) CONNECTED in
  let r := mt5_error_response no_g "Send order" market_closed_reply p in
  exists body,
    result r = Ok (body, 503%Z) /\ has_error body /\ has_error_type body.
Proof.
  intros p r.
  destruct (error_envelopes (W:=terminal) no_g) as (_ & _ & Hmt5 & _).
  assert (Hrun : exists body, result r = Ok (body, 503%Z))
    by (eexists; vm_compute; reflexivity).
  destruct Hrun as [body Hrun]. exists body. split; [exact Hrun|].
  destruct (Hmt5 "Send order" market_closed_reply p body 503%Z Hrun) as (He & Ht & _).
  split; assumption.
Defined.

(** C3, as stated, fails: a request whose volume is null makes the order
    route answer 500 with an envelope that has no error_type. *)
Lemma internal_error_has_no_error_type :
  let data :=
    PDict (<["symbol" := PStr "EURUSD"]> (<["volume" := PNone]>
          (<["type" := PStr "BUY"]> ∅))) in
  let r := send_market_order_endpoint no_g data (start (demo true done_reply) CONNECTED) in
  exists body,
    result r = Ok (Resp body 500)
    /\ body !! "error" = Some (PStr "Internal server error")
    /\ body !! "error_type" = None
    /\ ~ has_error_type body.
Proof.
  eexists. split; [vm_compute; reflexivity|].
  split; [reflexivity|]. split; [reflexivity|].
  intros (t & Ht & _). vm_compute in Ht. discriminate.
Qed.

(** C2 at the failing input.  The terminal answers the closing deal of
    position 42 with return code 10018.  [close_position] turns that into
    None, so the close route answers 400 validation_error; the
    classification it has for a non-success return code is never reached.
    The partial-close route, given the same answer, classifies it: 503
    connection_error. *)
Theorem close_position_hides_retcode :
  let p := start (demo true market_closed_reply) CONNECTED in
  let r := close_position_endpoint no_g close_json p in
  (exists request, In (EvOrderSend request) (events r))
  /\ t_reply (world p) = Some market_closed_reply
  /\ retcode market_closed_reply = 10018%Z
  /\ result r
     = Ok (Resp (<["error" := PStr "Failed to close position"]>
                (<["error_type" := PStr "validation_error"]> ∅)) 400)
  /\ (exists body,
        result (close_position_partial_endpoint no_g (partial_json 1 (1 # 2)) p)
        = Ok (Resp body 503)
        /\ body !! "error_type" = Some (PStr "connection_error")).
Proof.
  split; [eexists; vm_compute; repeat (first [left; reflexivity | right])|].
  split; [reflexivity|]. split; [reflexivity|].
  split; [vm_compute; reflexivity|].
  eexists. split; [vm_compute; reflexivity|]. reflexivity.
Qed.

(** ** The other write routes classify *)

Section WriteRouteProperties.
Context {W : Type} `{RT : Runtime W} `{CT : Constants}.

(** A cancellation the terminal answers with a return code other than
    DONE is classified by [mt5_error_response]. *)
Lemma cancel_order_classifies (g : flask_g) (ticket : Z) (p : process W)
    (o : TradeOrder) (rest : list TradeOrder) (res : OrderSendResult)
    (code : Z) (text : string) (w1 w2 w3 : W) :
  mt5_orders_get ticket (world p) = (Ok (Some (o :: rest)), w1) ->
  mt5_order_send
    (<["action" := PInt mt5.TRADE_ACTION_REMOVE]>
    (<["order" := PInt ticket]>
    (<["type_time" := PInt mt5.ORDER_TIME_GTC]>
    (<["type_filling" := PInt mt5.ORDER_FILLING_RETURN]> ∅)))) w1
  = (Ok (Some res), w2) ->
  retcode res <> mt5.TRADE_RETCODE_DONE ->
  mt5_last_error w2 = (Ok (code, text), w3) ->
  let connection_fault :=
    Z_in code [10004; 10005; 10006]%Z
    || Z_in (retcode res) [10018; 10019; 10020]%Z in
  exists body,
    result (cancel_order g ticket p)
    = Ok (Resp body (if connection_fault then 503 else 400)%Z)
    /\ body !! "error_type"
       = Some (PStr (if connection_fault then "connection_error"
                     else "mt5_rejected")).
Proof.
  intros Hget Hsend Hres Hle connection_fault.
  destruct (mt5_error_response_run g "Cancel order" res (Process w2 (conn p))
              code text w3 Hle) as (body & Hrun & _ & Htype & _).
  exists body. split; [|exact Htype].
  assert (Hneq : negb (retcode res =? mt5.TRADE_RETCODE_DONE)%Z = true)
    by (apply negb_true_iff, Z.eqb_neq; exact Hres).
  unfold cancel_order, try_except.
  unfold bind at 1, call at 1. rewrite Hget.
  unfold bind at 1, call at 1. cbn [world conn]. rewrite Hsend, Hneq.
  unfold bind at 1. cbn [world conn] in Hrun. rewrite Hrun.
  reflexivity.
Qed.

End WriteRouteProperties.

(** ** The order route *)

Section OrderProperties.
Context {W : Type} `{RT : Runtime W} `{CT : Constants}.









End OrderProperties.



(** ** The partial-close route *)

Section PartialCloseProperties.
Context {W : Type} `{RT : Runtime W} `{CT : Constants}.


Lemma dict_truthy (d : gmap string pyval) (k : string) (v : pyval) :
  d !! k = Some v -> py_truthy (PDict d) = true.
Proof.
  intros H. cbn. destruct (size d) eqn:E; [|reflexivity].
  apply map_size_empty_iff in E. subst d. rewrite lookup_empty in H. discriminate.
Qed.




Lemma call_run {A} (ev : event) (f : W -> outcome A * W) (p : process W)
    (a : A) (w' : W) :
  f (world p) = (Ok a, w') -> call ev f p = Run (Ok a) (Process w' (conn p)) [ev].
Proof. intros H. unfold call. rewrite H. reflexivity. Qed.




End PartialCloseProperties.




(** ** More on the connection lifecycle *)

Section MoreConnectionProperties.
Context {W : Type} `{RT : Runtime W}.

Ltac case_call :=
  match goal with
  | |- context [mt5_initialize ?w] =>
      destruct (mt5_initialize w) as [[[|]|?] ?]
  | |- context [mt5_account_info ?w] =>
      destruct (mt5_account_info w) as [[[?|]|?] ?]
  | |- context [mt5_last_error ?w] =>
      destruct (mt5_last_error w) as [[?|?] ?]
  end; cbn -[String.append str_of_Z].

(** A pass of the loop that returns True has set CONNECTED and cleared
    the last error; one that returns False has set DISCONNECTED with a
    diagnostic. *)
Lemma login_attempt_outcome (attempt : Z) (p : process W) (b : bool) :
  result (login_attempt attempt p) = Ok b ->
  if b then _status (conn (final (login_attempt attempt p))) = CONNECTED
            /\ _last_error (conn (final (login_attempt attempt p))) = None
  else answer_matches false (conn (final (login_attempt attempt p))).
Proof.
  unfold login_attempt, record_failure, bind, try_except, get_conn, call,
    _set_status, ret, answer_matches.
  destruct (1 <? attempt)%Z; cbn -[String.append str_of_Z]; repeat case_call;
    intros [= <-]; eauto.
Qed.

(** With fuel for the attempts that remain, the answer of the loop
    matches the state it leaves. *)
Lemma initialize_loop_outcome (n : nat) :
  forall (a : Z) (p : process W),
    (_max_reconnect_attempts (conn p) - a <= Z.of_nat n)%Z ->
    exists b,
      result (initialize_loop n a p) = Ok b
      /\ answer_matches b (conn (final (initialize_loop n a p))).
Proof.
  induction n as [|n IH]; intros a p Hfuel.
  - cbn [initialize_loop]. rewrite bind_get_conn.
    destruct (a <? _max_reconnect_attempts (conn p))%Z eqn:E.
    + apply Z.ltb_lt in E. lia.
    + exists false. rewrite give_up_run. cbn. eauto.
  - change (initialize_loop (S n) a p) with
      (bind get_conn (fun c =>
         if (a <? _max_reconnect_attempts c)%Z then
           bind (login_attempt (a + 1)) (fun connected =>
             if connected then ret true
             else bind (backoff (a + 1)) (fun _ => initialize_loop n (a + 1)))
         else give_up_initialize) p).
    rewrite bind_get_conn.
    destruct (a <? _max_reconnect_attempts (conn p))%Z eqn:E;
      [|exists false; rewrite give_up_run; cbn; eauto].
    destruct (login_attempt_frame (a + 1) p) as (Hm & _ & _ & [b Hb]).
    pose proof (login_attempt_outcome (a + 1) p b Hb) as Hout.
    rewrite (bind_ok _ _ _ _ Hb). cbn [result final].
    destruct b.
    + exists true. split; [reflexivity|]. cbn. tauto.
    + destruct (backoff_frame (a + 1) (final (login_attempt (a + 1) p)))
        as (p2 & t2 & Hrun & Hc).
      rewrite (bind_run _ _ _ _ _ _ Hrun). cbn [result final].
      apply IH. rewrite Hc, Hm. lia.
Qed.

Lemma initialize_answer (p : process W) :
  exists b,
    result (initialize p) = Ok b
    /\ answer_matches b (conn (final (initialize p))).
Proof.
  unfold initialize. rewrite bind_get_conn.
  apply initialize_loop_outcome. lia.
Qed.



Lemma ensure_connection_answer (p : process W) :
  exists b,
    result (ensure_connection p) = Ok b
    /\ answer_matches b (conn (final (ensure_connection p))).
Proof.
  unfold ensure_connection, is_connected, bind, try_except, get_conn, call, ret,
    _set_status.
  cbn -[initialize].
  destruct (_status (conn p)) eqn:Hs; cbn -[initialize].
  - destruct (initialize_answer p) as (b & Hb & Hm).
    destruct (initialize p). cbn in *. eauto.
  - destruct (mt5_account_info (world p)) as [[[account|]|e] w'];
      cbn -[initialize].
    + exists true. split; [reflexivity|]. exact Hs.
    + destruct (initialize_answer
                  (Process w' {| _status := DISCONNECTED;
                                 _last_error := Some "Connection lost";
                                 _max_reconnect_attempts :=
                                   _max_reconnect_attempts (conn p);
                                 _base_delay := _base_delay (conn p) |}))
        as (b & Hb & Hm).
      destruct (initialize _). cbn in *. eauto.
    + destruct (initialize_answer
                  (Process w' {| _status := DISCONNECTED;
                                 _last_error := Some (exn_msg e);
                                 _max_reconnect_attempts :=
                                   _max_reconnect_attempts (conn p);
                                 _base_delay := _base_delay (conn p) |}))
        as (b & Hb & Hm).
      destruct (initialize _). cbn in *. eauto.
  - destruct (initialize_answer p) as (b & Hb & Hm).
    destruct (initialize p). cbn in *. eauto.
Qed.




(** X3.  With no attempt allowed [initialize] fails at once: it does not call
    the terminal and leaves the final diagnostic. *)
Theorem initialize_without_attempts (p : process W) :
  (_max_reconnect_attempts (conn p) <= 0)%Z ->
  initialize p
  = Run (Ok false)
      (Process (world p)
         (lost (conn p)
            ("Failed to initialize MT5 after "
               +:+ str_of_Z (_max_reconnect_attempts (conn p)) +:+ " attempts")))
      [].
Proof.
  intros Hmax. unfold initialize. rewrite bind_get_conn.
  assert (Hfuel : Z.to_nat (_max_reconnect_attempts (conn p)) = O) by lia.
  rewrite Hfuel. cbn [initialize_loop]. rewrite bind_get_conn.
  assert (Hge : (0 <? _max_reconnect_attempts (conn p))%Z = false)
    by (apply Z.ltb_ge; lia).
  rewrite Hge. apply give_up_run.
Qed.

(** X5.  [shutdown] calls the terminal at most once, swallows what that call
    raises, and leaves the manager DISCONNECTED; a second [shutdown]
    right after does nothing at all. *)
Theorem shutdown_idempotent (p : process W) :
  let r := shutdown p in
  result r = Ok tt
  /\ _status (conn (final r)) = DISCONNECTED
  /\ (events r = [] \/ events r = [EvShutdown])
  /\ shutdown (final r) = Run (Ok tt) (final r) [].
Proof.
  unfold shutdown, bind, try_except, get_conn, call, ret, _set_status.
  cbn. destruct (_status (conn p)) eqn:E; cbn;
    try (destruct (mt5_shutdown (world p)) as [[[]|e] w']; cbn);
    try rewrite E; cbn; auto.
Qed.

(** X6.  The gate in front of the routes.  When the connection cannot be
    ensured the route is not run: the answer is 503, its mt5_status is
    "disconnected", its detail is the diagnostic the manager holds, and
    the only calls made are those of [ensure_connection].  Otherwise the
    route runs in the state [ensure_connection] left. *)
Theorem require_mt5_connection_gate_closed (g : flask_g) (f : M W view_return)
    (p : process W) :
  let ec := ensure_connection p in
  let r := require_mt5_connection g f p in
  (result ec = Ok false ->
     exists body msg,
       r = Run (Ok (Resp body 503)) (final ec) (events ec)
       /\ _last_error (conn (final ec)) = Some msg
       /\ body !! "error" = Some (PStr "MT5 unavailable")
       /\ body !! "detail" = Some (PStr msg)
       /\ body !! "mt5_status" = Some (PStr "disconnected"))
  /\ (result ec = Ok true ->
      _status (conn (final ec)) = CONNECTED
      /\ r = Run (result (f (final ec))) (final (f (final ec)))
               (events ec ++ events (f (final ec)))).
Proof.
  intros ec r. subst r.
  destruct (ensure_connection_answer p) as (b & Hb & Hm). fold ec in Hb, Hm.
  unfold require_mt5_connection. split; intros Hok.
  - rewrite Hok in Hb. injection Hb as <-.
    destruct Hm as [Hst [msg Hmsg]].
    rewrite (bind_ok _ _ _ _ Hok). fold ec. cbn [negb].
    unfold get_last_error, get_status, bind, get_conn, ret.
    cbn [result final events]. rewrite Hst, Hmsg, !app_nil_r.
    eexists. exists msg. split; [reflexivity|]. split; [reflexivity|].
    rewrite !add_request_id_lookup by discriminate.
    repeat split; reflexivity.
  - rewrite Hok in Hb. injection Hb as <-.
    split; [exact Hm|].
    rewrite (bind_ok _ _ _ _ Hok). reflexivity.
Qed.


End MoreConnectionProperties.



(** A manager configured with no attempts at all. *)
Lemma initialize_without_attempts_witness :
  let p := Process (demo true done_reply) (MT5Connection_init 0 1) in
  (_max_reconnect_attempts (conn p) <= 0)%Z
  /\ result (initialize p) = Ok false
  /\ events (initialize p) = []
  /\ _last_error (conn (final (initialize p)))
     = Some "Failed to initialize MT5 after 0 attempts".
Proof.
  intros p.
  assert (H : (_max_reconnect_attempts (conn p) <= 0)%Z) by (vm_compute; discriminate).
  split; [exact H|].
  rewrite (initialize_without_attempts p H).
  split; [reflexivity|]. split; reflexivity.
Defined.

(** The terminal has gone away under a CONNECTED manager: the order
    route is not entered, the answer is 503. *)
Lemma require_mt5_connection_witness :
  let down := start (demo false done_reply) CONNECTED in
  let up := start (demo true done_reply) CONNECTED in
  let route := send_market_order_endpoint no_g (order_json "BUY" ∅) in
  result (ensure_connection down) = Ok false
  /\ (exists body,
        result (require_mt5_connection no_g route down) = Ok (Resp body 503)
        /\ body !! "mt5_status" = Some (PStr "disconnected"))
  /\ result (ensure_connection up) = Ok true
  /\ result (require_mt5_connection no_g route up)
     = result (route (final (ensure_connection up))).
Proof.
  intros down up route.
  assert (Hd : result (ensure_connection down) = Ok false) by (vm_compute; reflexivity).
  assert (Hu : result (ensure_connection up) = Ok true) by (vm_compute; reflexivity).
  destruct (require_mt5_connection_gate_closed no_g route down) as [Hclosed _].
  destruct (require_mt5_connection_gate_closed no_g route up) as [_ Hopen].
  destruct (Hclosed Hd) as (body & msg & Hrun & _ & _ & _ & Hst).
  destruct (Hopen Hu) as [_ Hrun'].
  split; [exact Hd|]. split.
  - exists body. split; [|exact Hst]. exact (f_equal result Hrun).
  - split; [exact Hu|]. exact (f_equal result Hrun').
Defined.


(** ** Trade requests are submitted once *)

Section ShotLaws.
Context {W : Type}.

Lemma order_sends_app (t1 t2 : list event) :
  order_sends (t1 ++ t2) = order_sends t1 + order_sends t2.
Proof. unfold order_sends. rewrite List.filter_app, length_app. reflexivity. Qed.

Lemma quiet_ret {A} (a : A) : quiet (W:=W) (ret a).
Proof. intros p. reflexivity. Qed.

Lemma quiet_raise {A} (e : exn) : quiet (W:=W) (A:=A) (raise e).
Proof. intros p. reflexivity. Qed.

Lemma quiet_lift {A} (o : outcome A) : quiet (W:=W) (lift o).
Proof. intros p. reflexivity. Qed.

Lemma quiet_get_conn : quiet (W:=W) get_conn.
Proof. intros p. reflexivity. Qed.

Lemma quiet_call {A} (ev : event) (f : W -> outcome A * W) :
  is_order_send ev = false -> quiet (call ev f).
Proof.
  intros H p. unfold call. destruct (f (world p)). unfold order_sends. cbn.
  rewrite H. reflexivity.
Qed.

Lemma quiet_bind {A B} (m : M W A) (k : A -> M W B) :
  quiet m -> (forall a, quiet (k a)) -> quiet (bind m k).
Proof.
  intros Hm Hk p. unfold bind. specialize (Hm p).
  destruct (m p) as [[a|e] p1 t1]; cbn [result final events] in *; [|exact Hm].
  specialize (Hk a p1). destruct (k a p1) as [r p2 t2]. cbn [result final events] in *.
  rewrite order_sends_app, Hm, Hk. reflexivity.
Qed.

Lemma quiet_try {A} (m : M W A) (h : exn -> M W A) :
  quiet m -> (forall e, quiet (h e)) -> quiet (try_except m h).
Proof.
  intros Hm Hh p. unfold try_except. specialize (Hm p).
  destruct (m p) as [[a|e] p1 t1]; cbn [result final events] in *; [exact Hm|].
  specialize (Hh e p1). destruct (h e p1) as [r p2 t2]. cbn [result final events] in *.
  rewrite order_sends_app, Hm, Hh. reflexivity.
Qed.

Lemma one_shot_ret {A} (good : A -> Prop) (a : A) :
  ~ good a -> one_shot (W:=W) good (ret a).
Proof.
  intros Hbad p. cbn [ret result events]. split; [apply Nat.le_0_l|].
  intros a' [= <-] Hgood. contradiction.
Qed.

Lemma one_shot_raise {A} (good : A -> Prop) (e : exn) :
  one_shot (W:=W) good (raise e).
Proof. intros p. split; [apply Nat.le_0_l|]. discriminate. Qed.

(** Before the submission: what runs first is quiet. *)
Lemma one_shot_bind {A B} (good : B -> Prop) (m : M W A) (k : A -> M W B) :
  quiet m -> (forall a, one_shot good (k a)) -> one_shot good (bind m k).
Proof.
  intros Hm Hk p. unfold bind. specialize (Hm p).
  destruct (m p) as [[a|e] p1 t1]; cbn [result final events] in *.
  - specialize (Hk a p1). destruct (k a p1) as [r p2 t2]. cbn [result final events] in *.
    rewrite order_sends_app, Hm. exact Hk.
  - rewrite Hm. split; [apply Nat.le_0_l|]. discriminate.
Qed.

(** The same, using what the first part returns. *)
Lemma one_shot_bind_returns {A B} (Q : A -> Prop) (good : B -> Prop)
    (m : M W A) (k : A -> M W B) :
  quiet m -> returns Q m -> (forall a, Q a -> one_shot good (k a)) ->
  one_shot good (bind m k).
Proof.
  intros Hm Hr Hk p. unfold bind. specialize (Hm p). specialize (Hr p).
  destruct (m p) as [[a|e] p1 t1]; cbn [result final events] in *.
  - specialize (Hk a (Hr a eq_refl) p1).
    destruct (k a p1) as [r p2 t2]. cbn [result final events] in *.
    rewrite order_sends_app, Hm. exact Hk.
  - rewrite Hm. split; [apply Nat.le_0_l|]. discriminate.
Qed.

(** The submission: what runs after it is quiet. *)
Lemma one_shot_send {A B} (good : B -> Prop) (request : gmap string pyval)
    (f : W -> outcome A * W) (k : A -> M W B) :
  (forall a, quiet (k a)) -> one_shot good (bind (call (EvOrderSend request) f) k).
Proof.
  intros Hk p. unfold bind, call.
  destruct (f (world p)) as [[a|e] w']; cbn [result final events].
  - specialize (Hk a (Process w' (conn p))).
    destruct (k a (Process w' (conn p))) as [r p2 t2]. cbn [result final events] in *.
    change (EvOrderSend request :: t2) with ([EvOrderSend request] ++ t2).
    rewrite order_sends_app, Hk. split; [apply le_n|reflexivity].
  - split; [apply le_n|]. discriminate.
Qed.

(** After a computation that has submitted: the rest is quiet, and does
    not turn a failure into a success. *)
Lemma one_shot_then {A B} (sent : A -> Prop) (good : B -> Prop)
    (m : M W A) (k : A -> M W B) :
  one_shot sent m ->
  (forall a, quiet (k a)) ->
  (forall a, sent a \/ returns (fun b => ~ good b) (k a)) ->
  one_shot good (bind m k).
Proof.
  intros Hm Hq Hk p. unfold bind. specialize (Hm p).
  destruct (m p) as [[a|e] p1 t1]; cbn [result final events] in *.
  - specialize (Hq a p1). specialize (Hk a).
    destruct (k a p1) as [r p2 t2] eqn:Hrun. cbn [result final events] in *.
    rewrite order_sends_app, Hq, Nat.add_0_r.
    destruct Hm as [Hle Hone]. split; [exact Hle|].
    intros b -> Hgood. destruct Hk as [Hsent|Hbad].
    + apply (Hone a eq_refl Hsent).
    + exfalso. apply (Hbad p1 b); [rewrite Hrun; reflexivity|exact Hgood].
  - destruct Hm as [Hle _]. split; [exact Hle|]. discriminate.
Qed.

(** [try: ... except Exception as e: return h(e)] with a quiet handler
    whose answer is no success. *)
Lemma one_shot_try {A} (good : A -> Prop) (m : M W A) (h : exn -> M W A) :
  one_shot good m ->
  (forall e, quiet (h e)) ->
  (forall e, returns (fun a => ~ good a) (h e)) ->
  one_shot good (try_except m h).
Proof.
  intros Hm Hq Hbad p. unfold try_except. specialize (Hm p).
  destruct (m p) as [[a|e] p1 t1]; cbn [result final events] in *; [exact Hm|].
  specialize (Hq e p1). specialize (Hbad e p1).
  destruct (h e p1) as [r p2 t2]. cbn [result final events] in *.
  rewrite order_sends_app, Hq, Nat.add_0_r.
  destruct Hm as [Hle _]. split; [exact Hle|].
  intros a -> Hgood. exfalso. exact (Hbad a eq_refl Hgood).
Qed.

(** A view whose exceptions all end in a response. *)
Lemma answers_try {A} (m : M W A) (f : exn -> A) :
  answers (try_except m (fun e => ret (f e))).
Proof.
  intros p. unfold try_except, ret.
  destruct (m p) as [[a|e] p1 t1]; cbn; eauto.
Qed.



End ShotLaws.

(** One step of a proof that a computation submits nothing. *)
Ltac quiet_step :=
  cbn zeta;
  match goal with
  | |- quiet (bind _ _) => apply quiet_bind; [|intros ?]
  | |- quiet (try_except _ _) => apply quiet_try; [|intros ?]
  | |- quiet (ret _) => apply quiet_ret
  | |- quiet (raise _) => apply quiet_raise
  | |- quiet (lift _) => apply quiet_lift
  | |- quiet get_conn => apply quiet_get_conn
  | |- quiet (call _ _) => apply quiet_call; reflexivity
  | |- quiet (if ?b then _ else _) => destruct b
  | |- quiet (match ?x with _ => _ end) => destruct x
  end.

(** A response that is no success. *)
Ltac no_success :=
  solve [ unfold is_success, reply, validation_error_response,
            internal_error_response; cbn [fst snd]; first [discriminate | tauto]
        | intros [] ].

Section SingleShot.
Context {W : Type} `{RT : Runtime W} `{CT : Constants}.

Lemma validate_symbol_quiet symbol : quiet (validate_symbol symbol).
Proof. unfold validate_symbol. repeat quiet_step. Qed.

Lemma get_symbol_filling_mode_quiet symbol : quiet (get_symbol_filling_mode symbol).
Proof. unfold get_symbol_filling_mode. repeat quiet_step. Qed.

Lemma validate_volume_quiet symbol volume : quiet (validate_volume symbol volume).
Proof. unfold validate_volume. repeat quiet_step. Qed.

Lemma validate_pending_price_quiet order_type symbol price :
  quiet (validate_pending_price order_type symbol price).
Proof. unfold validate_pending_price. repeat quiet_step. Qed.

Lemma mt5_error_response_quiet g operation res :
  quiet (mt5_error_response g operation res).
Proof. unfold mt5_error_response. repeat quiet_step. Qed.

Lemma resolve_entry_quiet g d symbol order_type :
  quiet (resolve_entry g d symbol order_type).
Proof.
  unfold resolve_entry.
  repeat first [apply validate_pending_price_quiet | quiet_step].
Qed.

(** The connection manager never trades. *)
Lemma login_attempt_quiet attempt : quiet (login_attempt attempt).
Proof.
  unfold login_attempt, record_failure, _set_status.
  repeat first [quiet_step | intros ?; reflexivity].
Qed.

Lemma initialize_loop_quiet (n : nat) : forall attempt, quiet (initialize_loop n attempt).
Proof.
  induction n as [|n IH]; intros attempt; cbn [initialize_loop].
  - unfold give_up_initialize, _set_status.
    repeat first [quiet_step | intros ?; reflexivity].
  - unfold give_up_initialize, backoff, sleep, _set_status.
    repeat first [apply login_attempt_quiet | apply IH | quiet_step
                 | intros ?; reflexivity].
Qed.

Lemma ensure_connection_quiet : quiet ensure_connection.
Proof.
  unfold ensure_connection, initialize, is_connected, _set_status.
  repeat first [apply initialize_loop_quiet | quiet_step | intros ?; reflexivity].
Qed.

(** One step of a proof that a route is single-shot. *)
Ltac shot_step :=
  cbn zeta;
  match goal with
  | |- one_shot _ (bind (call (EvOrderSend _) _) _) =>
      apply one_shot_send; intros ?
  | |- one_shot _ (bind _ _) => apply one_shot_bind; [|intros ?]
  | |- one_shot _ (ret _) => apply one_shot_ret; no_success
  | |- one_shot _ (raise _) => apply one_shot_raise
  | |- one_shot _ (if ?b then _ else _) => destruct b
  | |- one_shot _ (match ?x with _ => _ end) => destruct x
  end.

Ltac quiet_steps :=
  repeat first
    [ apply validate_symbol_quiet
    | apply validate_volume_quiet
    | apply validate_pending_price_quiet
    | apply get_symbol_filling_mode_quiet
    | apply resolve_entry_quiet
    | apply mt5_error_response_quiet
    | quiet_step ].

Ltac shot_steps := repeat first [ shot_step | progress quiet_steps ].

Ltac route_shot :=
  apply one_shot_try;
  [ | intros ?; apply quiet_ret
    | intros ?; apply returns_ret; no_success ].

(** An early return of [resolve_entry] is a validation error. *)
Lemma resolve_entry_returns g d symbol order_type :
  returns (fun entry => match entry with
                        | inl early => ~ is_success early
                        | inr _ => True
                        end)
    (resolve_entry g d symbol order_type).
Proof.
  unfold resolve_entry, validate_pending_price.
  repeat first
    [ apply returns_ret; first [exact I | no_success]
    | returns_step ].
Qed.

Lemma send_market_order_one_shot (g : flask_g) (data : pyval) :
  one_shot is_success (send_market_order_endpoint g data).
Proof.
  unfold send_market_order_endpoint, send_market_order_body.
  route_shot.
  repeat first
    [ eapply one_shot_bind_returns;
        [apply resolve_entry_quiet | apply resolve_entry_returns
        | intros [early|[action price]] Hentry;
          [apply one_shot_ret; exact Hentry|] ]
    | shot_step
    | progress quiet_steps ].
Qed.

Lemma cancel_order_one_shot (g : flask_g) (ticket : Z) :
  one_shot is_success (cancel_order g ticket).
Proof. unfold cancel_order. route_shot. shot_steps. Qed.

Lemma modify_order_one_shot (g : flask_g) (ticket : Z) (data : pyval) :
  one_shot is_success (modify_order g ticket data).
Proof. unfold modify_order. route_shot. shot_steps. Qed.

Lemma modify_sl_tp_one_shot (g : flask_g) (data : pyval) :
  one_shot is_success (modify_sl_tp_endpoint g data).
Proof. unfold modify_sl_tp_endpoint. route_shot. shot_steps. Qed.

Lemma close_position_partial_one_shot (g : flask_g) (data : pyval) :
  one_shot is_success (close_position_partial_endpoint g data).
Proof. unfold close_position_partial_endpoint. route_shot. shot_steps. Qed.

(** [close_position] submits at most once, and has submitted whenever it
    returns a result. *)
Lemma close_position_one_shot (position deviation magic comment : pyval) :
  one_shot (W:=W) (fun r => r <> None)
    (close_position position deviation magic comment).
Proof.
  unfold close_position.
  repeat first
    [ apply one_shot_ret; intros H; apply H; reflexivity
    | shot_step
    | progress quiet_steps ].
Qed.

Lemma close_position_endpoint_one_shot (g : flask_g) (data : pyval) :
  one_shot is_success (close_position_endpoint g data).
Proof.
  unfold close_position_endpoint. route_shot.
  cbn zeta. destruct (negb (py_truthy data)); [shot_step|].
  apply one_shot_bind; [apply quiet_lift|intros has_position].
  destruct (negb has_position); [shot_step|].
  destruct data; try apply one_shot_raise.
  apply one_shot_bind; [apply quiet_lift|intros position].
  eapply one_shot_then; [apply close_position_one_shot| |].
  - intros [res|]; quiet_steps.
  - intros [res|]; [left; discriminate|right].
    apply returns_ret. no_success.
Qed.

(** X8.  The routes of routes/order.py that trade: each answers whatever
    happens (an exception becomes a response), submits at most one trade
    request per call, and answers 200 only after having submitted one. *)
Theorem order_routes_single_shot (g : flask_g) (ticket : Z) (data : pyval) :
  (answers (send_market_order_endpoint g data)
   /\ one_shot is_success (send_market_order_endpoint g data))
  /\ (answers (cancel_order g ticket)
      /\ one_shot is_success (cancel_order g ticket))
  /\ (answers (modify_order g ticket data)
      /\ one_shot is_success (modify_order g ticket data)).
Proof.
  split; [|split]; split;
    first [ apply answers_try
          | apply send_market_order_one_shot
          | apply cancel_order_one_shot
          | apply modify_order_one_shot ].
Qed.

(** X9.  The same for the routes of routes/position.py that trade. *)
Theorem position_routes_single_shot (g : flask_g) (data : pyval) :
  (answers (close_position_endpoint g data)
   /\ one_shot is_success (close_position_endpoint g data))
  /\ (answers (close_position_partial_endpoint g data)
      /\ one_shot is_success (close_position_partial_endpoint g data))
  /\ (answers (modify_sl_tp_endpoint g data)
      /\ one_shot is_success (modify_sl_tp_endpoint g data)).
Proof.
  split; [|split]; split;
    first [ apply answers_try
          | apply close_position_endpoint_one_shot
          | apply close_position_partial_one_shot
          | apply modify_sl_tp_one_shot ].
Qed.

(** X10.  The gate adds no trade request of its own: a gated route is
    single-shot when the route is, and nothing is submitted when the
    connection cannot be ensured. *)
Theorem gated_route_single_shot (g : flask_g) (f : M W view_return) :
  one_shot is_success f ->
  one_shot is_success (require_mt5_connection g f)
  /\ forall p, result (ensure_connection p) = Ok false ->
       order_sends (events (require_mt5_connection g f p)) = 0.
Proof.
  intros Hf. split.
  - unfold require_mt5_connection.
    apply one_shot_bind; [apply ensure_connection_quiet|intros ok].
    destruct (negb ok); [|exact Hf].
    unfold get_last_error, get_status.
    repeat first
      [ apply one_shot_ret; cbn; discriminate
      | apply one_shot_bind; [quiet_steps|intros ?] ].
  - intros p Hdown. unfold require_mt5_connection.
    rewrite (bind_ok _ _ _ _ Hdown). cbn [negb events].
    rewrite order_sends_app, ensure_connection_quiet.
    unfold get_last_error, get_status, bind, get_conn, ret. reflexivity.
Qed.

End SingleShot.

(** The gated order route against a terminal that is up, and against one
    that went away: one request, and none. *)
Lemma gated_route_witness :
  let route := send_market_order_endpoint no_g (order_json "BUY" ∅) in
  let up := start (demo true done_reply) CONNECTED in
  let down := start (demo false done_reply) CONNECTED in
  one_shot (W:=terminal) is_success route
  /\ order_sends (events (require_mt5_connection no_g route up)) = 1
  /\ order_sends (events (require_mt5_connection no_g route down)) = 0.
Proof.
  intros route up down.
  pose proof (send_market_order_one_shot (W:=terminal) no_g (order_json "BUY" ∅))
    as Hroute.
  destruct (gated_route_single_shot no_g route Hroute) as [Hgated Hclosed].
  split; [exact Hroute|]. split.
  - destruct (Hgated up) as [_ Hone].
    eapply Hone; [vm_compute; reflexivity|reflexivity].
  - apply Hclosed. vm_compute. reflexivity.
Defined.


(** ** What the order route lets through *)

Section SoundOrders.
Context {W : Type} `{RT : Runtime W} `{CT : Constants}.







End SoundOrders.


(** ** Requests that are turned away, and what is taken from where *)

Section MoreMonadLaws.
Context {W : Type}.

Lemma bind_ext {A B} (m : M W A) (k1 k2 : A -> M W B) (p : process W) :
  (forall a q, k1 a q = k2 a q) -> bind m k1 p = bind m k2 p.
Proof.
  intros H. unfold bind. destruct (m p) as [[a|e] p1 t1]; [rewrite H|]; reflexivity.
Qed.

Lemma try_except_ext {A} (m1 m2 : M W A) (h : exn -> M W A) (p : process W) :
  m1 p = m2 p -> try_except m1 h p = try_except m2 h p.
Proof. intros H. unfold try_except. rewrite H. reflexivity. Qed.


End MoreMonadLaws.

Section TurnedAway.
Context {W : Type} `{RT : Runtime W} `{CT : Constants}.



Lemma resolve_entry_market (g : flask_g) (d d' : gmap string pyval)
    (symbol : pyval) (order_type : Z) :
  order_type = mt5.ORDER_TYPE_BUY \/ order_type = mt5.ORDER_TYPE_SELL ->
  resolve_entry g d' symbol order_type = resolve_entry g d symbol order_type.
Proof. intros [-> | ->]; reflexivity. Qed.

(** X13.  A market order is priced by the route, not by the caller: a price
    field in a BUY or SELL request changes nothing, neither the calls
    made, nor the request submitted, nor the answer. *)
Theorem market_order_ignores_price (g : flask_g) (d : gmap string pyval)
    (s : string) (x : pyval) (p : process W) :
  d !! "type" = Some (PStr s) ->
  str_upper s = "BUY" \/ str_upper s = "SELL" ->
  send_market_order_endpoint g (PDict (<["price" := x]> d)) p
  = send_market_order_endpoint g (PDict d) p.
Proof.
  intros Htype Hmarket.
  assert (Hmap : exists t, ORDER_TYPE_MAP !! str_upper s = Some t
                           /\ (t = mt5.ORDER_TYPE_BUY \/ t = mt5.ORDER_TYPE_SELL)).
  { destruct Hmarket as [-> | ->]; eexists; (split; [reflexivity|]); auto. }
  destruct Hmap as (t & Hmap & Ht).
  unfold send_market_order_endpoint. apply try_except_ext.
  unfold send_market_order_body. cbn zeta.
  rewrite (dict_truthy d "type" _ Htype).
  rewrite (dict_truthy (<["price" := x]> d) "price" x) by apply lookup_insert_eq.
  cbn [negb py_all_in py_contains].
  unfold optional_float, order_request_data, dict_getitem, dict_get.
  rewrite !lookup_insert_ne by discriminate.
  apply bind_ext. intros complete q0.
  destruct (negb complete); [reflexivity|].
  apply bind_ext. intros symbol q1.
  apply bind_ext. intros selectable q2.
  destruct (negb selectable); [reflexivity|].
  rewrite Htype, !bind_lift_ok, Hmap.
  apply bind_ext. intros volume_v q3.
  apply bind_ext. intros volume q4.
  destruct (Qleb volume 0); [reflexivity|].
  apply bind_ext. intros checked q5.
  destruct (negb (fst checked)); [reflexivity|].
  rewrite (resolve_entry_market g d (<["price" := x]> d) symbol t Ht).
  reflexivity.
Qed.



(** X16.  The closing deal is built from the position the terminal holds, not
    from what the caller sent: for a position found under the ticket,
    every trade request [close_position] submits is a deal of the
    opposite type for the whole open volume on the symbol of the
    position, with the magic number of the position; the [magic]
    argument is not used. *)
Theorem close_position_uses_live_position (pd : gmap string pyval)
    (ticket deviation magic comment : pyval) (p : process W)
    (live : TradePosition) (rest : list TradePosition) (w1 : W) :
  pd !! "ticket" = Some ticket ->
  mt5_positions_get ticket (world p) = (Ok (Some (live :: rest)), w1) ->
  Forall (sends_ok (closes_live ticket live deviation comment))
    (events (close_position (PDict pd) deviation magic comment p)).
Proof.
  intros Hticket Hget.
  unfold close_position. cbn [py_contains].
  rewrite bool_decide_eq_true_2 by (rewrite Hticket; eauto).
  rewrite bind_lift_ok. cbn [negb].
  unfold dict_getitem. rewrite Hticket, bind_lift_ok.
  rewrite (bind_run _ _ _ _ _ _ (call_run _ _ p _ w1 Hget)).
  cbn [events]. constructor; [exact I|].
  generalize (Process w1 (conn p)).
  match goal with
  | |- forall q, Forall ?P (events (?m q)) => change (emits P m)
  end.
  unfold validate_symbol, get_symbol_filling_mode.
  repeat first
    [ apply emits_call; first [exact I | repeat split; reflexivity]
    | emits_step ].
Qed.

End TurnedAway.


(** A BUY of 0.1 lot that names a price of 2.0: the same run as
    without. *)
Lemma market_order_ignores_price_witness :
  let d : gmap string pyval :=
    <["symbol" := PStr "EURUSD"]> (<["volume" := PFloat (1 # 10)]>
    (<["type" := PStr "buy"]> ∅)) in
  let p := start (demo true done_reply) CONNECTED in
  d !! "type" = Some (PStr "buy")
  /\ (str_upper "buy" = "BUY" \/ str_upper "buy" = "SELL")
  /\ send_market_order_endpoint no_g (PDict (<["price" := PFloat 2]> d)) p
     = send_market_order_endpoint no_g (PDict d) p.
Proof.
  intros d p.
  assert (H1 : d !! "type" = Some (PStr "buy")) by reflexivity.
  assert (H2 : str_upper "buy" = "BUY" \/ str_upper "buy" = "SELL")
    by (left; reflexivity).
  split; [exact H1|]. split; [exact H2|].
  exact (market_order_ignores_price no_g d "buy" (PFloat 2) p H1 H2).
Defined.


(** The SELL position 42 of one lot is closed by a BUY of one lot, also
    when the caller passes a magic number of its own. *)
Lemma close_position_uses_live_position_witness :
  let p := start (demo true done_reply) CONNECTED in
  let pd : gmap string pyval := <["ticket" := PInt 42]> ∅ in
  let r := close_position (PDict pd) (PInt 20) (PInt 999) (PStr "") p in
  pd !! "ticket" = Some (PInt 42)
  /\ mt5_positions_get (PInt 42) (world p) = (Ok (Some [sell_position]), world p)
  /\ exists request,
       In (EvOrderSend request) (events r)
       /\ request !! "type" = Some (PInt mt5.ORDER_TYPE_BUY)
       /\ request !! "volume" = Some (PFloat 1)
       /\ request !! "magic" = Some (PInt 0).
Proof.
  intros p pd r.
  assert (H1 : pd !! "ticket" = Some (PInt 42)) by reflexivity.
  assert (H2 : mt5_positions_get (PInt 42) (world p)
               = (Ok (Some [sell_position]), world p)) by reflexivity.
  split; [exact H1|]. split; [exact H2|].
  pose proof (close_position_uses_live_position pd (PInt 42) (PInt 20) (PInt 999)
                (PStr "") p sell_position [] (world p) H1 H2) as Hall.
  assert (Hev : exists request, In (EvOrderSend request) (events r))
    by (eexists; vm_compute; repeat (first [left; reflexivity | right])).
  destruct Hev as [request Hin]. exists request. split; [exact Hin|].
  rewrite List.Forall_forall in Hall. specialize (Hall _ Hin).
  destruct Hall as (_ & _ & _ & Hvol & Hty & Hmagic & _).
  split; [exact Hty|]. split; [exact Hvol|exact Hmagic].
Defined.


(** ** Modifications *)

Section Modifications.
Context {W : Type} `{RT : Runtime W} `{CT : Constants}.






End Modifications.






(** ** Request ids *)

Section RequestIds.
Context {W : Type} `{RT : Runtime W} `{CT : Constants}.



End RequestIds.



(** ** Unknown tickets *)

Section UnknownTickets.
Context {W : Type} `{RT : Runtime W} `{CT : Constants}.




End UnknownTickets.




(** ** The SL/TP route classifies *)

Section SltpClassifies.
Context {W : Type} `{RT : Runtime W} `{CT : Constants}.


End SltpClassifies.

